(** * GPUStatsMonitor: a shallow embedding of
    [pytorch_lightning/callbacks/gpu_stats_monitor.py]

    The callback samples [nvidia-smi] at the start and at the end of every
    training batch, logs one metric batch per queried field, and keeps two
    time stamps from which it logs the time spent inside a step and between
    two steps.

    Python floats are IEEE binary64 numbers and are modelled by Rocq's
    primitive floats; dictionaries are finite maps with string keys; the
    hooks are computations in a state-and-exception monad over the monitor
    object and the trainer's logger.  What the hooks obtain from the outside
    (the exit status and output of [nvidia-smi], the readings of
    [time.time()], the trainer's [global_step], the process rank) is an
    explicit environment argument of each hook call. *)

From Stdlib Require Import Ascii String PrimFloat FloatOps SpecFloat.
From stdpp Require Import gmap strings list pretty.

(** ** Python text *)

(** The line feed character, Python's ["\n"]. *)
Definition LF : string := String "010"%char "".

(** [str.isspace] on one character.  Text is a string of 8-bit characters
    read as code points; below 256 Python counts as white space the
    controls 9-13 and 28-31, the blank, NEL (133) and the no-break space
    (160). *)
Definition py_isspace (c : ascii) : bool :=
  let n := nat_of_ascii c in
  (((9 <=? n) && (n <=? 13)) || ((28 <=? n) && (n <=? 32))
   || (n =? 133) || (n =? 160))%nat.

(** [s.lstrip()], [s.rstrip()] and [s.strip()] without argument. *)
Fixpoint py_lstrip (s : string) : string :=
  match s with
  | String c s' => if py_isspace c then py_lstrip s' else s
  | EmptyString => EmptyString
  end.

Definition py_rstrip (s : string) : string :=
  String.rev (py_lstrip (String.rev s)).

Definition py_strip (s : string) : string := py_rstrip (py_lstrip s).

(** [s.split(sep)] scans from the left and cuts at every occurrence of
    [sep] that does not overlap the previous one.  [skip] counts the
    characters of a separator that was just recognised and is still to be
    passed over; [cur] is the current piece, reversed. *)
Fixpoint split_go (sep : string) (skip : nat) (cur s : string) : list string :=
  match s with
  | EmptyString => [String.rev cur]
  | String c s' =>
      match skip with
      | S k => split_go sep k cur s'
      | O =>
          if String.prefix sep s
          then String.rev cur :: split_go sep (String.length sep - 1) "" s'
          else split_go sep 0 (String c cur) s'
      end
  end.

(** [s.split(sep)]: [None] stands for the [ValueError] that Python raises
    for an empty separator. *)
Definition py_split (sep s : string) : option (list string) :=
  if decide (sep = "") then None else Some (split_go sep 0 "" s).

(** The text of the example: three lines separated by line feeds. *)
Definition three_gpus : string := "10" +:+ LF +:+ "20" +:+ LF +:+ "30".

(** ** Python numbers *)

(** The values the monitor logs: the fallback reading is the integer [0],
    every other reading is a float. *)
Inductive number : Type :=
  | PyInt (z : Z)
  | PyFloat (f : float).

(** Truth value of a float: every float but [0.0] and [-0.0] is true
    (a NaN is true). *)
Definition float_truthy (f : float) : bool := negb (PrimFloat.eqb f 0%float).

(** [(now - snap) * 1000], in float arithmetic. *)
Definition elapsed_ms (now snap : float) : float :=
  PrimFloat.mul (PrimFloat.sub now snap) 1000%float.

(** A parser for unsigned decimal integers, the fragment of Python's
    [float()] on which the model is run: a non-empty string of ASCII digits
    denotes the float nearest to that integer, ties to even, and infinity
    beyond the range of the floats. *)
Fixpoint digits_value (acc : Z) (s : string) : option Z :=
  match s with
  | EmptyString => Some acc
  | String c s' =>
      match Ascii.is_nat c with
      | Some d => digits_value (10 * acc + Z.of_nat d) s'
      | None => None
      end
  end.

Definition float_of_digits (s : string) : option float :=
  match s with
  | EmptyString => None
  | _ => (λ z, SF2Prim (binary_normalize prec emax z 0 false))
         <$> digits_value 0 s
  end.

(** ** Data of the monitor *)

(** The six switches of [self._log_stats]. *)
Record log_stats : Type := LogStats {
  memory_utilization : bool;
  gpu_utilization : bool;
  intra_step_time : bool;
  inter_step_time : bool;
  fan_speed : bool;
  temperature : bool
}.

(** An attribute that holds a time stamp: not assigned yet (the object has
    no such attribute before the first epoch starts), [None], or a float. *)
Inductive attr : Type :=
  | Missing
  | PyNone
  | Stamp (t : float).

Record GPUStatsMonitor : Type := Monitor {
  _log_stats : log_stats;
  snap_intra_step_time : attr;
  snap_inter_step_time : attr
}.

(** One call [logger.log_metrics(metrics, step=step)]. *)
Abbreviation metrics := (gmap string number).
Abbreviation log_call := (gmap string number * Z)%type.

(** What the hooks read and write: the monitor, the trainer's logger
    ([None] when the trainer has no logger, otherwise the calls it has
    received, oldest first), and the warnings issued so far. *)
Record state : Type := State {
  self : GPUStatsMonitor;
  logger : option (list log_call);
  warnings : list string
}.

(** How one run of the external command ends: it exits with a status and
    what it has written decodes as UTF-8, [stdout] being the decoded text;
    or it exits and its output does not decode; or it could not be
    started. *)
Inductive proc_outcome : Type :=
  | Exited (returncode : Z) (stdout : string)
  | Undecodable (returncode : Z)
  | NotStarted.

(** What a hook call gets from outside the monitor.  [nvidia_smi pitem] is
    the outcome of running the tool found by [shutil.which] with
    [--query-gpu=pitem --format=csv,nounits,noheader]; no hook queries the
    same field twice.  [time_time k] is the reading of the [k]-th call site
    of [time.time()] in the hook's body, in program order. *)
Record env : Type := Env {
  rank : nat;
  global_step : Z;
  on_gpu : bool;
  which_nvidia_smi : option string;
  nvidia_smi : string → proc_outcome;
  time_time : nat → float
}.

Inductive exn : Type :=
  | MisconfigurationException (msg : string)
  | CalledProcessError (returncode : Z)
  | UnicodeDecodeError
  | OSError
  | TypeError
  | AttributeError.

(** A host on which the tool is installed and answers every query with
    [stdout], in the process of rank 0 at step 7, the clock reading [now]. *)
Definition host (stdout : string) (now : float) : env :=
  Env 0 7 true (Some "/usr/bin/nvidia-smi") (λ _, Exited 0 stdout) (λ _, now).

(** The same host when the tool exits with status [rc]. *)
Definition failing_host (rc : Z) : env :=
  Env 0 7 true (Some "/usr/bin/nvidia-smi") (λ _, Exited rc "") (λ _, 0%float).

(** A monitor that only times the steps, one that only samples memory,
    and a trainer with a logger that has received no call yet. *)
Definition timers_only : log_stats := LogStats false false true true false false.
Definition memory_only : log_stats := LogStats true false false false false false.

Definition fresh (flags : log_stats) : state :=
  State (Monitor flags Missing Missing) (Some []) [].

(** ** The monad of the hooks *)

Definition M (A : Type) : Type := state → (exn + A) * state.

Definition ret {A} (a : A) : M A := λ s, (inr a, s).
Definition raise {A} (x : exn) : M A := λ s, (inl x, s).
Definition bind {A B} (c : M A) (k : A → M B) : M B := λ s,
  match c s with
  | (inl x, s') => (inl x, s')
  | (inr a, s') => k a s'
  end.

Global Instance M_ret : MRet M := @ret.
Global Instance M_bind : MBind M := λ A B k c, bind c k.
Global Instance M_fmap : FMap M := λ A B f c, bind c (λ a, ret (f a)).

(** [if b: body] *)
Definition when (b : bool) (body : M unit) : M unit :=
  if b then body else ret tt.

(** A result of a pure call that may raise. *)
Definition lift {A} (r : exn + A) : M A := λ s, (r, s).

Definition get_self : M GPUStatsMonitor := λ s, (inr (self s), s).

Definition set_snap_intra (a : attr) : M unit := λ s,
  (inr tt,
   State (Monitor (_log_stats (self s)) a (snap_inter_step_time (self s)))
         (logger s) (warnings s)).

Definition set_snap_inter (a : attr) : M unit := λ s,
  (inr tt,
   State (Monitor (_log_stats (self s)) (snap_intra_step_time (self s)) a)
         (logger s) (warnings s)).

(** Reading [self.<name>]: an attribute that was never assigned raises
    [AttributeError]. *)
Definition getattr (field : GPUStatsMonitor → attr) : M attr := λ s,
  match field (self s) with
  | Missing => (inl AttributeError, s)
  | a => (inr a, s)
  end.

(** Truth value of [None] or a float. *)
Definition attr_truthy (a : attr) : bool :=
  match a with
  | Stamp t => float_truthy t
  | _ => false
  end.

(** The float operand of [time.time() - self.<name>]. *)
Definition float_operand (a : attr) : M float :=
  match a with
  | Stamp t => ret t
  | PyNone => raise TypeError
  | Missing => raise AttributeError
  end.

(** ** The callback

    Two things come from the Python runtime and not from this file: the
    builtin [float()], given as the partial function [float_of_str] ([None]
    for [ValueError]), and [os.linesep]. *)

Section GPUStatsMonitor.

Variable float_of_str : string → option float.
Variable os_linesep : string.

(** [f"gpu_{pitem}/gpu_id_{index} ({unit})"] *)
Definition stat_name (pitem : string) (index : nat) (unit : string) : string :=
  "gpu_" +:+ pitem +:+ "/gpu_id_" +:+ pretty index +:+ " (" +:+ unit +:+ ")".

(** [{key: value for ...}]: a later item overwrites an earlier one. *)
Definition dict_of (items : list (string * number)) : gmap string number :=
  foldl (λ d kv, <[kv.1 := kv.2]> d) ∅ items.

(** [subprocess.run([shutil.which("nvidia-smi"), ...], encoding="utf-8",
    check=True)], the text of [result.stdout] on success.  The output is
    decoded while it is collected, before the exit status is looked at. *)
Definition subprocess_run (exe : option string) (out : proc_outcome)
  : exn + string :=
  match exe with
  | None => inl TypeError
  | Some _ =>
      match out with
      | NotStarted => inl OSError
      | Undecodable _ => inl UnicodeDecodeError
      | Exited rc stdout =>
          if decide (rc = 0%Z) then inr stdout else inl (CalledProcessError rc)
      end
  end.

(** The [try] block: [None] stands for a [ValueError]. *)
Definition parse_gpu_usage (stdout : string) : option (list float) :=
  lines ← py_split os_linesep (py_strip stdout);
  mapM float_of_str lines.

Definition _get_gpu_stat (e : env) (pitem unit : string)
  : exn + gmap string number :=
  match subprocess_run (which_nvidia_smi e) (nvidia_smi e pitem) with
  | inl x => inl x
  | inr stdout =>
      let gpu_usage :=
        match parse_gpu_usage stdout with
        | Some usage => PyFloat <$> usage
        | None => [PyInt 0]
        end in
      inr (dict_of (imap (λ index usage, (stat_name pitem index unit, usage))
                         gpu_usage))
  end.

(** [trainer.logger.log_metrics(arg, step=trainer.global_step)]: the method
    is looked up first, then the argument is evaluated, then the call is
    made. *)
Definition append_call (c : gmap string number * Z) : M unit := λ s,
  (inr tt, State (self s) ((λ l, l ++ [c]) <$> logger s) (warnings s)).

Definition log_metrics (e : env) (arg : M (gmap string number)) : M unit :=
  λ s,
    match logger s with
    | None => (inl AttributeError, s)
    | Some _ => bind arg (λ m, append_call (m, global_step e)) s
    end.

Definition log_gpu_stat (e : env) (pitem unit : string) : M () :=
  log_metrics e (lift (_get_gpu_stat e pitem unit)).

Definition _log_usage (e : env) : M unit :=
  log_gpu_stat e "utilization.gpu" "%".

Definition _log_memory (e : env) : M unit :=
  log_gpu_stat e "memory.used" "MB";;
  log_gpu_stat e "memory.free" "MB";;
  log_gpu_stat e "utilization.memory" "%".

Definition inter_step_key : string := "batch_time/inter_step (ms)".
Definition intra_step_key : string := "batch_time/intra_step (ms)".

(** [{key: (time.time() - self.<name>) * 1000}] *)
Definition timing_metrics (key : string) (now : float)
    (field : GPUStatsMonitor → attr) : M (gmap string number) :=
  a ← getattr field;
  snap ← float_operand a;
  mret ({[ key := PyFloat (elapsed_ms now snap) ]} : gmap string number).

(** [flag and self.<name>], taken as a condition: the attribute is read
    only when the flag is set. *)
Definition flag_and_attr (flag : bool) (field : GPUStatsMonitor → attr)
  : M bool :=
  if flag then attr_truthy <$> getattr field else mret false.

(** Modelled from the spec: the decorator [rank_zero_only] of
    [pytorch_lightning.utilities], which is not part of this file.  Only one
    participant of a distributed run emits metrics: the body runs in the
    process of rank 0 and the call does nothing elsewhere. *)
Definition rank_zero_only (e : env) (fn : M unit) : M unit :=
  if decide (rank e = 0) then fn else mret tt.

Definition nvidia_driver_msg : string :=
  "Cannot use GPUStatsMonitor callback because NVIDIA driver is not installed.".
Definition no_logger_msg : string :=
  "Cannot use GPUStatsMonitor callback with Trainer that has no logger.".
Definition not_on_gpu_msg : string :=
  "You are using GPUStatsMonitor but are not running on GPU. Logged utilization will be independent from your model.".

(** [GPUStatsMonitor(...)]; [which] is the value of
    [shutil.which("nvidia-smi")] at that moment. *)
Definition __init__ (which : option string) (flags : log_stats)
  : exn + GPUStatsMonitor :=
  match which with
  | None => inl (MisconfigurationException nvidia_driver_msg)
  | Some _ => inr (Monitor flags Missing Missing)
  end.

Definition rank_zero_warn (e : env) (msg : string) : M unit :=
  rank_zero_only e
    (λ s, (inr tt, State (self s) (logger s) (warnings s ++ [msg]))).

Definition on_train_start (e : env) : M unit :=
  λ s,
    match logger s with
    | None => (inl (MisconfigurationException no_logger_msg), s)
    | Some _ => when (negb (on_gpu e)) (rank_zero_warn e not_on_gpu_msg) s
    end.

Definition on_train_epoch_start : M unit :=
  set_snap_intra PyNone;;
  set_snap_inter PyNone.

Definition on_train_batch_start (e : env) : M unit :=
  rank_zero_only e
    (cfg ← _log_stats <$> get_self;
     when (gpu_utilization cfg) (_log_usage e);;
     when (memory_utilization cfg) (_log_memory e);;
     b ← flag_and_attr (inter_step_time cfg) snap_inter_step_time;
     when b
       (log_metrics e
          (timing_metrics inter_step_key (time_time e 0) snap_inter_step_time));;
     when (intra_step_time cfg) (set_snap_intra (Stamp (time_time e 1)))).

Definition on_train_batch_end (e : env) : M unit :=
  rank_zero_only e
    (cfg ← _log_stats <$> get_self;
     when (gpu_utilization cfg) (_log_usage e);;
     when (memory_utilization cfg) (_log_memory e);;
     when (fan_speed cfg) (log_gpu_stat e "fan.speed" "%");;
     when (temperature cfg)
       (log_gpu_stat e "temperature.gpu" "degrees C";;
        log_gpu_stat e "temperature.memory" "degrees C");;
     when (inter_step_time cfg) (set_snap_inter (Stamp (time_time e 0)));;
     b ← flag_and_attr (intra_step_time cfg) snap_intra_step_time;
     when b
       (log_metrics e
          (timing_metrics intra_step_key (time_time e 1) snap_intra_step_time))).

(** ** Observing the logger *)

(** The calls the logger has received so far (none without a logger). *)
Definition calls (s : state) : list (gmap string number * Z) :=
  default [] (logger s).

(** The calls made between [s] and a later state [s']. *)
Definition emitted (s s' : state) : list (gmap string number * Z) :=
  drop (length (calls s)) (calls s').

(** The metric batch of a call has an entry named [key]. *)
Definition has_key (key : string) (c : gmap string number * Z) : bool :=
  bool_decide (is_Some (c.1 !! key)).

Definition is_timing (c : gmap string number * Z) : bool :=
  has_key intra_step_key c || has_key inter_step_key c.

(** A batch sampled for a field always holds the reading of device 0, which
    tells the field of the batch. *)
Definition is_memory (c : gmap string number * Z) : bool :=
  has_key (stat_name "memory.used" 0 "MB") c
  || has_key (stat_name "memory.free" 0 "MB") c
  || has_key (stat_name "utilization.memory" 0 "%") c.

(** The hook is entered and left at one clock reading [now]. *)
Definition at_time (now : float) (e : env) : env :=
  Env (rank e) (global_step e) (on_gpu e) (which_nvidia_smi e) (nvidia_smi e)
      (λ _, now).

(** Every run of the query tool in this hook call exits with status 0. *)
Definition queries_succeed (e : env) : Prop :=
  is_Some (which_nvidia_smi e)
  ∧ ∀ pitem, ∃ stdout, nvidia_smi e pitem = Exited 0 stdout.

(** One epoch as the training loop drives it: the reset, then a start and
    an end hook per step; an exception ends it. *)
Definition epoch (steps : list (env * env)) : M unit :=
  on_train_epoch_start;;
  foldr (λ step rest,
           on_train_batch_start step.1;; on_train_batch_end step.2;; rest)
        (mret tt) steps.

Definition all_off : log_stats := LogStats false false false false false false.

(** Two steps of an epoch, the hooks called at the times [t0] to [t3]:
    the states after the reset and after each of the four hook calls. *)
Definition two_steps (s : state) (e0 e1 e2 e3 : env) (t0 t1 t2 t3 : float)
  : state * state * state * state * state :=
  let s1 := (on_train_epoch_start s).2 in
  let s2 := (on_train_batch_start (at_time t0 e0) s1).2 in
  let s3 := (on_train_batch_end (at_time t1 e1) s2).2 in
  let s4 := (on_train_batch_start (at_time t2 e2) s3).2 in
  let s5 := (on_train_batch_end (at_time t3 e3) s4).2 in
  (s1, s2, s3, s4, s5).

(** The four hook calls of [two_steps] return without raising. *)
Definition two_steps_return (s : state) (e0 e1 e2 e3 : env)
    (t0 t1 t2 t3 : float) : Prop :=
  let '(s1, s2, s3, s4, _) := two_steps s e0 e1 e2 e3 t0 t1 t2 t3 in
  (on_train_batch_start (at_time t0 e0) s1).1 = inr tt
  ∧ (on_train_batch_end (at_time t1 e1) s2).1 = inr tt
  ∧ (on_train_batch_start (at_time t2 e2) s3).1 = inr tt
  ∧ (on_train_batch_end (at_time t3 e3) s4).1 = inr tt.

(** The step times the two steps are to log: nothing at the first start,
    the time of the step at each end, the time between the steps at the
    second start. *)
Definition two_steps_log (s : state) (e0 e1 e2 e3 : env)
    (t0 t1 t2 t3 : float) : Prop :=
  let '(s1, s2, s3, s4, s5) := two_steps s e0 e1 e2 e3 t0 t1 t2 t3 in
  filter is_timing (emitted s1 s2) = []
  ∧ filter is_timing (emitted s2 s3)
    = [({[ intra_step_key := PyFloat (elapsed_ms t1 t0) ]}, global_step e1)]
  ∧ filter is_timing (emitted s3 s4)
    = [({[ inter_step_key := PyFloat (elapsed_ms t2 t1) ]}, global_step e2)]
  ∧ filter is_timing (emitted s4 s5)
    = [({[ intra_step_key := PyFloat (elapsed_ms t3 t2) ]}, global_step e3)].

(** The statement on two steps for every increasing sequence of times. *)
Definition two_steps_at_any_times : Prop :=
  ∀ (s : state) (e0 e1 e2 e3 : env) (t0 t1 t2 t3 : float),
    intra_step_time (_log_stats (self s)) = true →
    inter_step_time (_log_stats (self s)) = true →
    rank e0 = 0 ∧ rank e1 = 0 ∧ rank e2 = 0 ∧ rank e3 = 0 →
    two_steps_return s e0 e1 e2 e3 t0 t1 t2 t3 →
    PrimFloat.ltb t0 t1 = true →
    PrimFloat.ltb t1 t2 = true →
    PrimFloat.ltb t2 t3 = true →
    two_steps_log s e0 e1 e2 e3 t0 t1 t2 t3.

(** The statement that an end hook logs the time of the step whenever a
    start hook of the epoch came before it. *)
Definition intra_step_after_any_start : Prop :=
  ∀ (s : state) (e0 e1 : env),
    intra_step_time (_log_stats (self s)) = true →
    rank e0 = 0 → rank e1 = 0 →
    let s1 := (on_train_epoch_start s).2 in
    let s2 := (on_train_batch_start e0 s1).2 in
    (on_train_batch_start e0 s1).1 = inr tt →
    (on_train_batch_end e1 s2).1 = inr tt →
    filter is_timing (emitted s2 (on_train_batch_end e1 s2).2)
    = [({[ intra_step_key :=
             PyFloat (elapsed_ms (time_time e1 1) (time_time e0 1)) ]},
        global_step e1)].

(** The two hooks sample first and deal with the step times afterwards.
    These are the second halves of their bodies. *)
Definition start_timing (e : env) (cfg : log_stats) : M unit :=
  b ← flag_and_attr (inter_step_time cfg) snap_inter_step_time;
  when b
    (log_metrics e
       (timing_metrics inter_step_key (time_time e 0) snap_inter_step_time));;
  when (intra_step_time cfg) (set_snap_intra (Stamp (time_time e 1))).

Definition end_timing (e : env) (cfg : log_stats) : M unit :=
  when (inter_step_time cfg) (set_snap_inter (Stamp (time_time e 0)));;
  b ← flag_and_attr (intra_step_time cfg) snap_intra_step_time;
  when b
    (log_metrics e
       (timing_metrics intra_step_key (time_time e 1) snap_intra_step_time)).

(** The call a hook makes for a step time: one call when the switch is on
    and the stored time stamp is true, none otherwise. *)
Definition timing_calls (e : env) (flag : bool) (key : string) (now : float)
    (snap : attr) : list (gmap string number * Z) :=
  match snap with
  | Stamp t =>
      if flag && float_truthy t
      then [({[ key := PyFloat (elapsed_ms now t) ]}, global_step e)]
      else []
  | _ => []
  end.

Definition memory_fields : list string :=
  ["memory.used"; "memory.free"; "utilization.memory"].

Definition other_fields : list string :=
  ["utilization.gpu"; "fan.speed"; "temperature.gpu"; "temperature.memory"].

Definition start_fields : list string := "utilization.gpu" :: memory_fields.

Definition end_fields : list string :=
  start_fields ++ ["fan.speed"; "temperature.gpu"; "temperature.memory"].

(** A call that logs the batch [_get_gpu_stat] returned for one of
    [fields], under the current step. *)
Definition stat_call (fields : list string) (e : env)
    (c : gmap string number * Z) : Prop :=
  c.2 = global_step e
  ∧ ∃ pitem unit, pitem ∈ fields ∧ _get_gpu_stat e pitem unit = inr c.1.

(** A computation that only samples [fields]: it does not look at the
    monitor, appends calls of sampled batches to the logger, goes through
    when every query succeeds and a logger is there, and never reports a
    configuration error. *)
Definition sampling (fields : list string) (e : env) (c : M unit) : Prop :=
  ∀ l w, ∃ r d,
    (∀ mon, c (State mon l w) = (r, State mon ((λ l0, l0 ++ d) <$> l) w))
    ∧ Forall (stat_call fields e) d
    ∧ (queries_succeed e → is_Some l → r = inr tt)
    ∧ (∀ msg, r ≠ inl (MisconfigurationException msg)).

(** ** More of the callback's behaviour *)

(** The fields the hooks query, each with the unit it is logged under. *)
Definition sampled_fields : list (string * string) :=
  [("utilization.gpu", "%"); ("memory.used", "MB"); ("memory.free", "MB");
   ("utilization.memory", "%"); ("fan.speed", "%");
   ("temperature.gpu", "degrees C"); ("temperature.memory", "degrees C")].

(** Every character of the text is white space. *)
Fixpoint blank (s : string) : bool :=
  match s with
  | EmptyString => true
  | String c s' => py_isspace c && blank s'
  end.

(** The hooks the training loop calls, with the environment of each call,
    and a run of the loop as the sequence of its calls; an exception ends
    the run. *)
Inductive hook_call : Type :=
  | TrainStart (e : env)
  | EpochStart
  | BatchStart (e : env)
  | BatchEnd (e : env).

Definition call_hook (h : hook_call) : M unit :=
  match h with
  | TrainStart e => on_train_start e
  | EpochStart => on_train_epoch_start
  | BatchStart e => on_train_batch_start e
  | BatchEnd e => on_train_batch_end e
  end.

Fixpoint run_hooks (hs : list hook_call) : M unit :=
  match hs with
  | [] => mret tt
  | h :: hs' => call_hook h;; run_hooks hs'
  end.

(** The queries of the two step hooks, in the order of their bodies. *)
Definition start_queries (cfg : log_stats) : list (string * string) :=
  (if gpu_utilization cfg then [("utilization.gpu", "%")] else [])
  ++ (if memory_utilization cfg
      then [("memory.used", "MB"); ("memory.free", "MB");
            ("utilization.memory", "%")]
      else []).

Definition end_queries (cfg : log_stats) : list (string * string) :=
  start_queries cfg
  ++ (if fan_speed cfg then [("fan.speed", "%")] else [])
  ++ (if temperature cfg
      then [("temperature.gpu", "degrees C");
            ("temperature.memory", "degrees C")]
      else []).

(** A computation that, when it returns, has run the queries [qs] and has
    logged their batches one call each, in that order, under the current
    step, leaving the monitor alone. *)
Definition logs_in_order (qs : list (string * string)) (e : env)
    (c : M unit) : Prop :=
  ∀ mon l w s',
    c (State mon l w) = (inr tt, s') →
    ∃ batches : list (gmap string number),
      Forall2 (λ q m, _get_gpu_stat e q.1 q.2 = inr m) qs batches
      ∧ s' = State mon
               ((λ l0, l0 ++ ((λ m, (m, global_step e)) <$> batches)) <$> l) w.

(** No character of the text is white space. *)
Fixpoint no_space (s : string) : bool :=
  match s with
  | EmptyString => true
  | String c s' => negb (py_isspace c) && no_space s'
  end.

(** The switches of [GPUStatsMonitor()], by the defaults of the
    constructor. *)
Definition default_flags : log_stats :=
  LogStats true true false false false false.

(** ** The lines of a text *)








(** * Properties *)

(** ** Text and dictionaries *)

Lemma string_length_app (s1 s2 : string) :
  String.length (s1 +:+ s2) = String.length s1 + String.length s2.
Proof.
  induction s1 as [|c s1 IH]; [done|].
  change (S (String.length (s1 +:+ s2)) = S (String.length s1) + String.length s2).
  by rewrite IH.
Qed.

Lemma string_app_inj_r (s1 s2 r : string) : s1 +:+ r = s2 +:+ r → s1 = s2.
Proof.
  revert s2. induction s1 as [|c s1 IH]; intros [|c' s2] Heq; [done|..].
  - apply (f_equal String.length) in Heq.
    rewrite !string_length_app in Heq. simpl in Heq. lia.
  - apply (f_equal String.length) in Heq.
    rewrite !string_length_app in Heq. simpl in Heq. lia.
  - change (String c (s1 +:+ r) = String c' (s2 +:+ r)) in Heq.
    injection Heq as -> Heq. f_equal. by apply IH.
Qed.

Global Instance stat_name_inj pitem unit :
  Inj (=) (=) (λ index, stat_name pitem index unit).
Proof.
  intros i j Heq. unfold stat_name in Heq.
  do 3 apply (inj (String.app _)) in Heq.
  apply string_app_inj_r in Heq. by apply (inj pretty) in Heq.
Qed.

Section dict_of_imap.

Context (name : nat → string) `{!Inj (=) (=) name}.

Lemma dict_of_snoc (l : list number) (v : number) :
  dict_of (imap (λ index u, (name index, u)) (l ++ [v]))
  = <[name (length l) := v]> (dict_of (imap (λ index u, (name index, u)) l)).
Proof.
  unfold dict_of. rewrite imap_app, foldl_app. simpl.
  by rewrite Nat.add_0_r.
Qed.

Lemma dict_of_imap_lookup_other (l : list number) (k : string) :
  (∀ i, i < length l → k ≠ name i) →
  dict_of (imap (λ index u, (name index, u)) l) !! k = None.
Proof.
  induction l as [|v l IH] using rev_ind; intros Hk; [done|].
  rewrite dict_of_snoc, length_app in *. simpl in Hk.
  rewrite lookup_insert_ne; [|intros <-; eapply (Hk (length l)); [lia|done]].
  apply IH. intros i Hi. apply Hk. lia.
Qed.

Lemma dict_of_imap_lookup (l : list number) (i : nat) :
  dict_of (imap (λ index u, (name index, u)) l) !! name i = l !! i.
Proof.
  induction l as [|v l IH] using rev_ind; [done|].
  rewrite dict_of_snoc. destruct (decide (i = length l)) as [->|Hne].
  - rewrite lookup_insert_eq. by rewrite list_lookup_middle.
  - rewrite lookup_insert_ne by (intros ?%(inj name); done).
    rewrite IH. destruct (decide (i < length l)).
    + by rewrite lookup_app_l.
    + rewrite !lookup_ge_None_2; [done|rewrite length_app; simpl; lia|lia].
Qed.

Lemma dict_of_imap_size (l : list number) :
  size (dict_of (imap (λ index u, (name index, u)) l)) = length l.
Proof.
  induction l as [|v l IH] using rev_ind; [done|].
  rewrite dict_of_snoc, length_app, map_size_insert_None; simpl; [lia|].
  rewrite dict_of_imap_lookup. apply lookup_ge_None_2. lia.
Qed.

Lemma dict_of_imap_key (l : list number) (k : string) :
  is_Some (dict_of (imap (λ index u, (name index, u)) l) !! k) →
  ∃ i, i < length l ∧ k = name i.
Proof.
  induction l as [|v l IH] using rev_ind; intros [x Hx]; [done|].
  rewrite dict_of_snoc in Hx. rewrite length_app. simpl.
  destruct (decide (name (length l) = k)) as [<-|Hne].
  - exists (length l). split; [lia|done].
  - rewrite lookup_insert_ne in Hx by done.
    destruct IH as (i & Hi & ->); [by eexists|]. exists i. split; [lia|done].
Qed.

End dict_of_imap.

(** ** The sampler [_get_gpu_stat] *)

Lemma subprocess_run_ok (path stdout : string) :
  subprocess_run (Some path) (Exited 0 stdout) = inr stdout.
Proof. done. Qed.

Lemma get_gpu_stat_ok (e : env) (pitem unit path stdout : string) :
  which_nvidia_smi e = Some path →
  nvidia_smi e pitem = Exited 0 stdout →
  _get_gpu_stat e pitem unit
  = inr (dict_of (imap (λ index usage, (stat_name pitem index unit, usage))
                       (match parse_gpu_usage stdout with
                        | Some usage => PyFloat <$> usage
                        | None => [PyInt 0]
                        end))).
Proof. intros Hwhich Hrun. unfold _get_gpu_stat. by rewrite Hwhich, Hrun. Qed.

Lemma get_gpu_stat_fallback (e : env) (pitem unit path stdout : string) :
  which_nvidia_smi e = Some path →
  nvidia_smi e pitem = Exited 0 stdout →
  parse_gpu_usage stdout = None →
  _get_gpu_stat e pitem unit = inr {[ stat_name pitem 0 unit := PyInt 0 ]}.
Proof.
  intros Hwhich Hrun Hparse.
  rewrite (get_gpu_stat_ok _ _ _ _ _ Hwhich Hrun), Hparse. done.
Qed.

(** C2.  When the query exits with status 0 but its output is empty or has
    a line that does not parse as a float, [_get_gpu_stat] does not raise:
    it returns the single entry of device 0 with value 0, whatever the
    other lines were. *)
Theorem get_gpu_stat_zero_fallback
    (e : env) (pitem unit path stdout : string) :
  float_of_str "" = None →
  which_nvidia_smi e = Some path →
  nvidia_smi e pitem = Exited 0 stdout →
  stdout = ""
  ∨ (∃ lines line, py_split os_linesep (py_strip stdout) = Some lines
                   ∧ line ∈ lines ∧ float_of_str line = None) →
  _get_gpu_stat e pitem unit = inr {[ stat_name pitem 0 unit := PyInt 0 ]}.
Proof.
  intros Hempty Hwhich Hrun Hbad.
  apply (get_gpu_stat_fallback _ _ _ _ _ Hwhich Hrun).
  unfold parse_gpu_usage.
  destruct Hbad as [->|(lines & line & Hsplit & Hin & Hline)].
  - change (py_strip "") with "". unfold py_split. case_decide; [done|].
    change (split_go os_linesep 0 "" "") with [""]. simpl. by rewrite Hempty.
  - rewrite Hsplit. simpl. apply mapM_None, Exists_exists. eauto.
Qed.


(** Membership in, and inclusion between, explicit lists of fields. *)
Ltac solve_fields :=
  unfold end_fields, start_fields, memory_fields, other_fields; simpl;
  try (let x := fresh "x" in let Hx := fresh "Hx" in
       intros x Hx; rewrite ?elem_of_cons, ?elem_of_nil in Hx);
  rewrite ?elem_of_cons; tauto.

(** ** Running the monad *)

Lemma run_bind {A B} (c : M A) (k : A → M B) (s : state) :
  (c ≫= k) s
  = match c s with
    | (inl x, s') => (inl x, s')
    | (inr a, s') => k a s'
    end.
Proof. done. Qed.

Lemma fmap_app_nil (l : option (list (gmap string number * Z))) :
  (λ l0, l0 ++ []) <$> l = l.
Proof. destruct l; simpl; [|done]. by rewrite app_nil_r. Qed.

Lemma fmap_app_app (l : option (list (gmap string number * Z))) d1 d2 :
  (λ l0, l0 ++ d2) <$> ((λ l0, l0 ++ d1) <$> l) = (λ l0, l0 ++ (d1 ++ d2)) <$> l.
Proof. destruct l; simpl; [|done]. by rewrite app_assoc. Qed.

Lemma emitted_app mon mon' l w w' d :
  emitted (State mon (Some l) w) (State mon' (Some (l ++ d)) w') = d.
Proof. unfold emitted, calls. simpl. apply drop_app_length. Qed.

Lemma emitted_no_logger mon mon' w w' :
  emitted (State mon None w) (State mon' None w') = [].
Proof. done. Qed.

(** ** Sampling blocks *)

Lemma get_gpu_stat_no_misconfiguration e pitem unit msg :
  _get_gpu_stat e pitem unit ≠ inl (MisconfigurationException msg).
Proof.
  unfold _get_gpu_stat, subprocess_run.
  destruct (which_nvidia_smi e); [|done].
  destruct (nvidia_smi e pitem) as [rc out|rc|]; [|done..]. by case_decide.
Qed.

Lemma get_gpu_stat_succeeds e pitem unit :
  queries_succeed e → ∃ m, _get_gpu_stat e pitem unit = inr m.
Proof.
  intros [[path Hwhich] Hrun]. destruct (Hrun pitem) as [out Hout].
  eexists. by apply (get_gpu_stat_ok _ _ _ _ _ Hwhich Hout).
Qed.

Lemma stat_call_mono fields fields' e c :
  fields ⊆ fields' → stat_call fields e c → stat_call fields' e c.
Proof. intros Hsub (Hstep & p & u & Hp & Hm). split; [done|]. eauto 6. Qed.

Lemma sampling_mono fields fields' e c :
  fields ⊆ fields' → sampling fields e c → sampling fields' e c.
Proof.
  intros Hsub Hc l w. destruct (Hc l w) as (r & d & Hrun & Hd & Hok & Hmis).
  exists r, d. split_and!; [done| |done..].
  eapply Forall_impl; [done|]. intros c'. by apply stat_call_mono.
Qed.

Lemma sampling_skip fields e : sampling fields e (mret tt).
Proof.
  intros l w. exists (inr tt), []. split_and!; [|done..].
  intros mon. by rewrite fmap_app_nil.
Qed.

Lemma sampling_log_gpu_stat e pitem unit :
  sampling [pitem] e (log_gpu_stat e pitem unit).
Proof.
  intros l w. unfold log_gpu_stat, log_metrics, lift, bind, append_call.
  destruct l as [l|]; simpl.
  - destruct (_get_gpu_stat e pitem unit) as [x|m] eqn:Hm.
    + exists (inl x), []. split_and!; [|done| |].
      * intros mon. by rewrite app_nil_r.
      * intros Hq _. destruct (get_gpu_stat_succeeds e pitem unit Hq).
        congruence.
      * intros msg [= ->]. by eapply get_gpu_stat_no_misconfiguration.
    + exists (inr tt), [(m, global_step e)]. split_and!; [done| |done..].
      apply Forall_singleton. split; [done|].
      exists pitem, unit. split; [solve_fields|done].
  - exists (inl AttributeError), []. split_and!; [done..| |done].
    by intros _ [??].
Qed.

Lemma sampling_seq fields e (c1 c2 : M unit) :
  sampling fields e c1 → sampling fields e c2 → sampling fields e (c1;; c2).
Proof.
  intros H1 H2 l w.
  destruct (H1 l w) as (r1 & d1 & Hrun1 & Hd1 & Hok1 & Hmis1).
  destruct r1 as [x|[]].
  - exists (inl x), d1. split_and!; [|done..].
    intros mon. by rewrite run_bind, Hrun1.
  - destruct (H2 ((λ l0, l0 ++ d1) <$> l) w)
      as (r2 & d2 & Hrun2 & Hd2 & Hok2 & Hmis2).
    exists r2, (d1 ++ d2). split_and!; [| |  |done].
    + intros mon. by rewrite run_bind, Hrun1, Hrun2, fmap_app_app.
    + by apply Forall_app.
    + intros Hq Hl. apply Hok2; [done|]. by apply fmap_is_Some.
Qed.

Lemma sampling_when fields e (b : bool) (c : M unit) :
  sampling fields e c → sampling fields e (when b c).
Proof. destruct b; [done|]. intros _. apply sampling_skip. Qed.

Lemma sampling_log_usage e : sampling ["utilization.gpu"] e (_log_usage e).
Proof. apply sampling_log_gpu_stat. Qed.

Lemma sampling_log_memory e : sampling memory_fields e (_log_memory e).
Proof.
  unfold _log_memory.
  repeat apply sampling_seq;
    (eapply sampling_mono; [|apply sampling_log_gpu_stat]);
    solve_fields.
Qed.

(** What a sampling block does in front of the rest of a hook. *)
Lemma sampling_then {B} fields e (c : M unit) (k : M B) l w :
  sampling fields e c →
  ∃ r d,
    Forall (stat_call fields e) d
    ∧ (queries_succeed e → is_Some l → r = inr tt)
    ∧ (∀ msg, r ≠ inl (MisconfigurationException msg))
    ∧ ∀ mon,
        (c;; k) (State mon l w)
        = match r with
          | inl x => (inl x, State mon ((λ l0, l0 ++ d) <$> l) w)
          | inr _ => k (State mon ((λ l0, l0 ++ d) <$> l) w)
          end.
Proof.
  intros Hc. destruct (Hc l w) as (r & d & Hrun & Hd & Hok & Hmis).
  exists r, d. split_and!; [done..|].
  intros mon. rewrite run_bind, Hrun. by destruct r.
Qed.

(** ** The batches of [_get_gpu_stat] *)

Lemma split_go_nonempty sep skip cur s : split_go sep skip cur s ≠ [].
Proof.
  revert skip cur. induction s as [|c s IH]; intros skip cur; simpl; [done|].
  destruct skip; [|apply IH]. case_match; [done|apply IH].
Qed.

Lemma get_gpu_stat_inv e pitem unit m :
  _get_gpu_stat e pitem unit = inr m →
  ∃ usage, usage ≠ []
    ∧ m = dict_of (imap (λ index v, (stat_name pitem index unit, v)) usage).
Proof.
  unfold _get_gpu_stat.
  destruct (subprocess_run _ _) as [x|stdout]; [done|]. intros [= <-].
  eexists. split; [|done].
  destruct (parse_gpu_usage stdout) as [vals|] eqn:Hparse; [|done].
  unfold parse_gpu_usage, py_split in Hparse. case_decide; [done|].
  simpl in Hparse. apply mapM_Some, Forall2_length in Hparse.
  destruct vals; [|done].
  simpl in Hparse. apply nil_length_inv in Hparse.
  by apply split_go_nonempty in Hparse.
Qed.

(** Every sampled batch has the reading of device 0. *)
Lemma get_gpu_stat_device_0 e pitem unit m :
  _get_gpu_stat e pitem unit = inr m → is_Some (m !! stat_name pitem 0 unit).
Proof.
  intros (usage & Hne & ->)%get_gpu_stat_inv.
  rewrite (dict_of_imap_lookup (λ i, stat_name pitem i unit)).
  destruct usage; [done|]. by eexists.
Qed.

(** Its keys are names of [pitem]. *)
Lemma get_gpu_stat_key e pitem unit m k :
  _get_gpu_stat e pitem unit = inr m → is_Some (m !! k) →
  ∃ index, k = stat_name pitem index unit.
Proof.
  intros (usage & _ & ->)%get_gpu_stat_inv Hk.
  apply (dict_of_imap_key (λ i, stat_name pitem i unit)) in Hk
    as (i & _ & ->).
  by exists i.
Qed.

Lemma stat_name_not_timing pitem index unit :
  stat_name pitem index unit ≠ inter_step_key
  ∧ stat_name pitem index unit ≠ intra_step_key.
Proof. split; intros Heq; discriminate Heq. Qed.

Lemma stat_call_not_timing fields e c :
  stat_call fields e c →
  c.1 !! inter_step_key = None ∧ c.1 !! intra_step_key = None.
Proof.
  intros (_ & pitem & unit & _ & Hm).
  split; apply eq_None_not_Some; intros Hk;
    destruct (get_gpu_stat_key _ _ _ _ _ Hm Hk) as [i Hi];
    symmetry in Hi; by apply stat_name_not_timing in Hi.
Qed.

(** ** The two halves of the step hooks *)

Lemma bind_assoc_run {A B C} (c : M A) (k : A → M B) (k' : B → M C) s :
  (c ≫= λ a, k a ≫= k') s = ((c ≫= k) ≫= k') s.
Proof. rewrite !run_bind. by destruct (c s) as [[x|a] s']. Qed.

Lemma sampling_start e cfg :
  sampling start_fields e
    (when (gpu_utilization cfg) (_log_usage e);;
     when (memory_utilization cfg) (_log_memory e)).
Proof.
  apply sampling_seq; apply sampling_when;
    (eapply sampling_mono; [|apply sampling_log_usage || apply sampling_log_memory]);
    solve_fields.
Qed.

Lemma sampling_fan_temperature e cfg :
  sampling ["fan.speed"; "temperature.gpu"; "temperature.memory"] e
    (when (fan_speed cfg) (log_gpu_stat e "fan.speed" "%");;
     when (temperature cfg)
       (log_gpu_stat e "temperature.gpu" "degrees C";;
        log_gpu_stat e "temperature.memory" "degrees C")).
Proof.
  apply sampling_seq; apply sampling_when; [|apply sampling_seq];
    (eapply sampling_mono; [|apply sampling_log_gpu_stat]); solve_fields.
Qed.

Lemma sampling_end e cfg :
  sampling end_fields e
    ((when (gpu_utilization cfg) (_log_usage e);;
      when (memory_utilization cfg) (_log_memory e));;
     (when (fan_speed cfg) (log_gpu_stat e "fan.speed" "%");;
      when (temperature cfg)
        (log_gpu_stat e "temperature.gpu" "degrees C";;
         log_gpu_stat e "temperature.memory" "degrees C"))).
Proof.
  apply sampling_seq;
    (eapply sampling_mono; [|apply sampling_start || apply sampling_fan_temperature]);
    solve_fields.
Qed.

Lemma on_train_batch_start_run e cfg l w :
  rank e = 0 →
  ∃ r d,
    Forall (stat_call start_fields e) d
    ∧ (queries_succeed e → is_Some l → r = inr tt)
    ∧ (∀ msg, r ≠ inl (MisconfigurationException msg))
    ∧ ∀ si sn,
        on_train_batch_start e (State (Monitor cfg si sn) l w)
        = match r with
          | inl x => (inl x, State (Monitor cfg si sn) ((λ l0, l0 ++ d) <$> l) w)
          | inr _ =>
              start_timing e cfg
                (State (Monitor cfg si sn) ((λ l0, l0 ++ d) <$> l) w)
          end.
Proof.
  intros Hrank.
  destruct (sampling_then start_fields e _ (start_timing e cfg) l w
              (sampling_start e cfg)) as (r & d & Hd & Hok & Hmis & Hrun).
  exists r, d. split_and!; [done..|]. intros si sn.
  rewrite <-Hrun. unfold on_train_batch_start, rank_zero_only.
  rewrite decide_True by done. rewrite run_bind. simpl.
  exact (bind_assoc_run _ (λ _, _) (λ _, start_timing e cfg) _).
Qed.

Lemma on_train_batch_end_run e cfg l w :
  rank e = 0 →
  ∃ r d,
    Forall (stat_call end_fields e) d
    ∧ (queries_succeed e → is_Some l → r = inr tt)
    ∧ (∀ msg, r ≠ inl (MisconfigurationException msg))
    ∧ ∀ si sn,
        on_train_batch_end e (State (Monitor cfg si sn) l w)
        = match r with
          | inl x => (inl x, State (Monitor cfg si sn) ((λ l0, l0 ++ d) <$> l) w)
          | inr _ =>
              end_timing e cfg
                (State (Monitor cfg si sn) ((λ l0, l0 ++ d) <$> l) w)
          end.
Proof.
  intros Hrank.
  destruct (sampling_then end_fields e _ (end_timing e cfg) l w
              (sampling_end e cfg)) as (r & d & Hd & Hok & Hmis & Hrun).
  exists r, d. split_and!; [done..|]. intros si sn.
  rewrite <-Hrun. unfold on_train_batch_end, rank_zero_only.
  rewrite decide_True by done. rewrite run_bind. simpl.
  rewrite !run_bind.
  destruct (when (gpu_utilization cfg) (_log_usage e) _) as [[x|[]] s1]; [done|].
  rewrite !run_bind.
  destruct (when (memory_utilization cfg) (_log_memory e) _) as [[x|[]] s2];
    [done|].
  rewrite !run_bind.
  destruct (when (fan_speed cfg) _ _) as [[x|[]] s3]; [done|].
  rewrite !run_bind.
  by destruct (when (temperature cfg) _ _) as [[x|[]] s4].
Qed.

Lemma off_rank_start e s : rank e ≠ 0 → on_train_batch_start e s = (inr tt, s).
Proof.
  intros Hrank. unfold on_train_batch_start, rank_zero_only.
  by rewrite decide_False by done.
Qed.

Lemma off_rank_end e s : rank e ≠ 0 → on_train_batch_end e s = (inr tt, s).
Proof.
  intros Hrank. unfold on_train_batch_end, rank_zero_only.
  by rewrite decide_False by done.
Qed.

(** The second half of the start hook: it logs the time between steps when
    there is a true time stamp of a step end, and records the start. *)
Lemma start_timing_run e cfg si sn l w :
  ∃ r si',
    start_timing e cfg (State (Monitor cfg si sn) l w)
    = (r, State (Monitor cfg si' sn)
            ((λ l0, l0 ++ timing_calls e (inter_step_time cfg) inter_step_key
                              (time_time e 0) sn) <$> l) w)
    ∧ (∀ msg, r ≠ inl (MisconfigurationException msg))
    ∧ (si' = si ∨ si' = Stamp (time_time e 1))
    ∧ (r = inr tt →
       (si' = if intra_step_time cfg then Stamp (time_time e 1) else si)
       ∧ (timing_calls e (inter_step_time cfg) inter_step_key
            (time_time e 0) sn ≠ [] → is_Some l))
    ∧ (is_Some l → sn ≠ Missing → r = inr tt).
Proof.
  unfold start_timing, timing_calls.
  destruct cfg as [mem gpu intra inter fan temp], l as [l|];
    destruct inter, intra, sn as [| |t]; try destruct (float_truthy t) eqn:Ht;
    simpl; unfold mbind, M_bind, bind, flag_and_attr, fmap, M_fmap, bind,
      getattr, log_metrics, timing_metrics, mbind, M_bind, bind, getattr;
    simpl; rewrite ?Ht; simpl; rewrite ?app_nil_r;
    eexists _, _; (split; [reflexivity|]);
    (split; [done|]); (split; [by auto|]);
    (split; [intros ?; split; [done|]; try done; by eauto|]);
    try (intros [??] ?; done); by intros.
Qed.

(** The second half of the end hook: it records the end of the step and
    logs the time of the step when there is a true time stamp of a start;
    the time stamp of the start stays as it is. *)
Lemma end_timing_run e cfg si sn l w :
  ∃ r,
    end_timing e cfg (State (Monitor cfg si sn) l w)
    = (r, State (Monitor cfg si
                   (if inter_step_time cfg then Stamp (time_time e 0) else sn))
            ((λ l0, l0 ++ timing_calls e (intra_step_time cfg) intra_step_key
                              (time_time e 1) si) <$> l) w)
    ∧ (∀ msg, r ≠ inl (MisconfigurationException msg))
    ∧ (r = inr tt →
       timing_calls e (intra_step_time cfg) intra_step_key (time_time e 1) si
       ≠ [] → is_Some l)
    ∧ (is_Some l → si ≠ Missing → r = inr tt).
Proof.
  unfold end_timing, timing_calls.
  destruct cfg as [mem gpu intra inter fan temp], l as [l|];
    destruct inter, intra, si as [| |t]; try destruct (float_truthy t) eqn:Ht;
    simpl; unfold mbind, M_bind, bind, flag_and_attr, fmap, M_fmap, bind,
      getattr, log_metrics, timing_metrics, mbind, M_bind, bind, getattr;
    simpl; rewrite ?Ht; simpl; rewrite ?app_nil_r;
    eexists; (split; [reflexivity|]);
    (split; [done|]); (split; [intros ?; try done; by eauto|]);
    try (intros [??] ?; done); by intros.
Qed.

Lemma emitted_fmap mon mon' l w w' d :
  emitted (State mon l w) (State mon' ((λ l0, l0 ++ d) <$> l) w')
  = match l with Some _ => d | None => [] end.
Proof. destruct l; [apply emitted_app|done]. Qed.

Lemma emitted_refl s : emitted s s = [].
Proof. unfold emitted. apply drop_all. Qed.

Lemma Forall_emitted_fmap (P : gmap string number * Z → Prop) mon mon' l w w' d :
  Forall P d →
  Forall P (emitted (State mon l w) (State mon' ((λ l0, l0 ++ d) <$> l) w')).
Proof. rewrite emitted_fmap. by destruct l. Qed.

(** ** The step times *)

(** C5.  After the reset at the start of an epoch, the first start hook
    logs no time between steps, whatever the configuration, the environment
    and the time stamps left by an earlier epoch. *)
Theorem no_inter_step_after_reset (e : env) (s : state) :
  Forall (λ c, c.1 !! inter_step_key = None)
    (emitted (on_train_epoch_start s).2
       (on_train_batch_start e (on_train_epoch_start s).2).2).
Proof.
  destruct s as [[cfg si sn] l w].
  change (on_train_epoch_start _).2
    with (State (Monitor cfg PyNone PyNone) l w).
  destruct (decide (rank e = 0)) as [Hrank|Hrank];
    [|rewrite off_rank_start, emitted_refl by done; constructor].
  destruct (on_train_batch_start_run e cfg l w Hrank)
    as (r & d & Hd & _ & _ & ->).
  assert (Forall (λ c, c.1 !! inter_step_key = None) d) as Hd'.
  { eapply Forall_impl; [done|]. intros c Hc.
    by apply stat_call_not_timing in Hc as [? _]. }
  destruct r as [x|[]]; [by apply Forall_emitted_fmap|].
  destruct (start_timing_run e cfg PyNone PyNone ((λ l0, l0 ++ d) <$> l) w)
    as (r & si' & -> & _).
  unfold timing_calls. rewrite fmap_app_nil. by apply Forall_emitted_fmap.
Qed.

(** ** All switches off *)

Lemma start_all_off e si sn l w :
  on_train_batch_start e (State (Monitor all_off si sn) l w)
  = (inr tt, State (Monitor all_off si sn) l w).
Proof. unfold on_train_batch_start, rank_zero_only. by case_decide. Qed.

Lemma end_all_off e si sn l w :
  on_train_batch_end e (State (Monitor all_off si sn) l w)
  = (inr tt, State (Monitor all_off si sn) l w).
Proof. unfold on_train_batch_end, rank_zero_only. by case_decide. Qed.

(** C6.  With the six switches off, an epoch (the reset, then any number of
    start and end hooks) goes through and makes no call to the logger. *)
Theorem all_off_emits_nothing (steps : list (env * env)) (s : state) :
  _log_stats (self s) = all_off →
  (epoch steps s).1 = inr tt
  ∧ logger (epoch steps s).2 = logger s
  ∧ emitted s (epoch steps s).2 = [].
Proof.
  destruct s as [[cfg si sn] l w]. simpl. intros ->.
  assert (∀ si sn,
    foldr (λ step rest,
             on_train_batch_start step.1;; on_train_batch_end step.2;; rest)
          (mret tt) steps (State (Monitor all_off si sn) l w)
    = (inr tt, State (Monitor all_off si sn) l w)) as Hsteps.
  { induction steps as [|[e1 e2] steps IH]; intros si' sn'; [done|].
    simpl. rewrite run_bind, start_all_off, run_bind, end_all_off. apply IH. }
  unfold epoch. rewrite run_bind.
  change (on_train_epoch_start _)
    with (inr tt : exn + unit, State (Monitor all_off PyNone PyNone) l w).
  cbv beta iota. rewrite Hsteps. simpl. split_and!; [done..|].
  unfold emitted, calls. simpl. apply drop_all.
Qed.

(** ** Hook calls that return *)

Lemma start_returns e cfg si sn l w :
  rank e = 0 →
  (on_train_batch_start e (State (Monitor cfg si sn) l w)).1 = inr tt →
  ∃ d,
    Forall (stat_call start_fields e) d
    ∧ on_train_batch_start e (State (Monitor cfg si sn) l w)
      = (inr tt,
         State (Monitor cfg
                  (if intra_step_time cfg then Stamp (time_time e 1) else si)
                  sn)
               ((λ l0, l0 ++ (d ++ timing_calls e (inter_step_time cfg)
                                     inter_step_key (time_time e 0) sn)) <$> l)
               w)
    ∧ (timing_calls e (inter_step_time cfg) inter_step_key (time_time e 0) sn
       ≠ [] → is_Some l).
Proof.
  intros Hrank.
  destruct (on_train_batch_start_run e cfg l w Hrank)
    as (r & d & Hd & _ & _ & ->).
  destruct r as [x|[]]; [done|].
  destruct (start_timing_run e cfg si sn ((λ l0, l0 ++ d) <$> l) w)
    as (r & si' & -> & _ & _ & Hret & _).
  simpl. intros ->. destruct Hret as [-> Hl]; [done|].
  exists d. rewrite fmap_app_app. split_and!; [done..|].
  intros Hne. apply Hl in Hne. by apply fmap_is_Some in Hne.
Qed.

Lemma end_returns e cfg si sn l w :
  rank e = 0 →
  (on_train_batch_end e (State (Monitor cfg si sn) l w)).1 = inr tt →
  ∃ d,
    Forall (stat_call end_fields e) d
    ∧ on_train_batch_end e (State (Monitor cfg si sn) l w)
      = (inr tt,
         State (Monitor cfg si
                  (if inter_step_time cfg then Stamp (time_time e 0) else sn))
               ((λ l0, l0 ++ (d ++ timing_calls e (intra_step_time cfg)
                                     intra_step_key (time_time e 1) si)) <$> l)
               w)
    ∧ (timing_calls e (intra_step_time cfg) intra_step_key (time_time e 1) si
       ≠ [] → is_Some l).
Proof.
  intros Hrank.
  destruct (on_train_batch_end_run e cfg l w Hrank)
    as (r & d & Hd & _ & _ & ->).
  destruct r as [x|[]]; [done|].
  destruct (end_timing_run e cfg si sn ((λ l0, l0 ++ d) <$> l) w)
    as (r & -> & _ & Hl & _).
  simpl. intros ->.
  exists d. rewrite fmap_app_app. split_and!; [done..|].
  intros Hne. apply Hl in Hne; [|done]. by apply fmap_is_Some in Hne.
Qed.

Lemma has_key_None key (c : gmap string number * Z) :
  c.1 !! key = None → has_key key c = false.
Proof.
  intros Hkey. unfold has_key. rewrite Hkey.
  apply bool_decide_eq_false_2. by intros [??].
Qed.

Lemma has_key_Some key (c : gmap string number * Z) :
  is_Some (c.1 !! key) → has_key key c = true.
Proof. intros Hkey. by apply bool_decide_eq_true_2. Qed.

Lemma is_timing_stat_call fields e c : stat_call fields e c → ¬ is_timing c.
Proof.
  intros [Hinter Hintra]%stat_call_not_timing.
  unfold is_timing. rewrite !has_key_None by done. by intros [].
Qed.

Lemma filter_timing_stat_calls fields e d :
  Forall (stat_call fields e) d → filter is_timing d = [].
Proof.
  induction 1 as [|c d Hc _ IH]; [done|].
  rewrite filter_cons_False; [done|]. by eapply is_timing_stat_call.
Qed.

Lemma is_timing_intra (v : number) (step : Z) :
  is_timing ({[ intra_step_key := v ]}, step).
Proof.
  unfold is_timing. rewrite (has_key_Some intra_step_key); [done|].
  simpl. by rewrite lookup_singleton_eq.
Qed.

Lemma is_timing_inter (v : number) (step : Z) :
  is_timing ({[ inter_step_key := v ]}, step).
Proof.
  unfold is_timing. rewrite (has_key_Some inter_step_key), orb_true_r; [done|].
  simpl. by rewrite lookup_singleton_eq.
Qed.

Lemma Forall_timing_calls e flag key now snap :
  key = intra_step_key ∨ key = inter_step_key →
  Forall is_timing (timing_calls e flag key now snap).
Proof.
  intros Hkey. unfold timing_calls.
  destruct snap as [| |t]; [done..|]. destruct (flag && float_truthy t); [|done].
  apply Forall_singleton.
  destruct Hkey as [-> | ->]; [apply is_timing_intra|apply is_timing_inter].
Qed.

Lemma filter_Forall {A} (P : A → Prop) `{!∀ x, Decision (P x)} (l : list A) :
  Forall P l → filter P l = l.
Proof.
  induction 1 as [|x l Hx _ IH]; [done|]. by rewrite filter_cons_True, IH.
Qed.

Lemma filter_timing_emitted fields e mon mon' l w w' d tc :
  Forall (stat_call fields e) d →
  Forall is_timing tc →
  (tc ≠ [] → is_Some l) →
  filter is_timing
    (emitted (State mon l w) (State mon' ((λ l0, l0 ++ (d ++ tc)) <$> l) w'))
  = tc.
Proof.
  intros Hd Htc Hl. rewrite emitted_fmap. destruct l as [l|].
  - rewrite filter_app, (filter_timing_stat_calls _ _ _ Hd).
    by apply filter_Forall.
  - destruct tc; [done|]. by destruct Hl as [??].
Qed.

(** C4, for time stamps other than zero.  With both step timers on, two
    steps whose hooks are called at the times [t0 < t1 < t2 < t3], none of
    [t0], [t1], [t2] being zero, and return, log as step times: nothing at
    the first start, [(t1 - t0) * 1000] under ["batch_time/intra_step (ms)"]
    at the first end, [(t2 - t1) * 1000] under
    ["batch_time/inter_step (ms)"] at the second start, and
    [(t3 - t2) * 1000] under ["batch_time/intra_step (ms)"] at the second
    end. *)
Theorem two_steps_timing
    (s : state) (e0 e1 e2 e3 : env) (t0 t1 t2 t3 : float) :
  intra_step_time (_log_stats (self s)) = true →
  inter_step_time (_log_stats (self s)) = true →
  rank e0 = 0 ∧ rank e1 = 0 ∧ rank e2 = 0 ∧ rank e3 = 0 →
  two_steps_return s e0 e1 e2 e3 t0 t1 t2 t3 →
  PrimFloat.ltb t0 t1 = true →
  PrimFloat.ltb t1 t2 = true →
  PrimFloat.ltb t2 t3 = true →
  float_truthy t0 = true →
  float_truthy t1 = true →
  float_truthy t2 = true →
  two_steps_log s e0 e1 e2 e3 t0 t1 t2 t3.
Proof.
  destruct s as [[cfg si sn] l w]. simpl.
  intros Hintra Hinter (Hr0 & Hr1 & Hr2 & Hr3) Hret _ _ _ Ht0 Ht1 Ht2.
  unfold two_steps_return, two_steps_log, two_steps in *.
  change (on_train_epoch_start _).2
    with (State (Monitor cfg PyNone PyNone) l w) in *.
  destruct Hret as (Hret2 & Hret3 & Hret4 & Hret5).
  destruct (start_returns (at_time t0 e0) cfg PyNone PyNone l w Hr0 Hret2)
    as (d2 & Hd2 & Hrun2 & Hl2).
  rewrite Hrun2 in Hret3, Hret4, Hret5 |- *. clear Hrun2 Hret2.
  rewrite Hintra in *. simpl in Hret3, Hret4, Hret5 |- *.
  destruct (end_returns (at_time t1 e1) _ _ _ _ _ Hr1 Hret3)
    as (d3 & Hd3 & Hrun3 & Hl3).
  rewrite Hrun3 in Hret4, Hret5 |- *. clear Hrun3 Hret3.
  rewrite Hintra, Hinter in *. simpl in Hret4, Hret5 |- *.
  destruct (start_returns (at_time t2 e2) _ _ _ _ _ Hr2 Hret4)
    as (d4 & Hd4 & Hrun4 & Hl4).
  rewrite Hrun4 in Hret5 |- *. clear Hrun4 Hret4.
  rewrite Hintra, Hinter in *. simpl in Hret5 |- *.
  destruct (end_returns (at_time t3 e3) _ _ _ _ _ Hr3 Hret5)
    as (d5 & Hd5 & Hrun5 & Hl5).
  rewrite Hrun5. clear Hrun5 Hret5.
  rewrite Hintra in *. simpl in *.
  rewrite Ht0 in Hl3 |- *. rewrite Ht1 in Hl4 |- *. rewrite Ht2 in Hl5 |- *.
  simpl in *.
  assert (is_Some l) as Hl.
  { rewrite app_nil_r in Hl3. by apply fmap_is_Some in Hl3. }
  split_and!; eapply filter_timing_emitted; try done;
    try (apply Forall_singleton; first [apply is_timing_intra|apply is_timing_inter]);
    intros _; by rewrite ?fmap_is_Some.
Qed.

(** ** The time stamp of the step start *)

Lemma end_keeps_snap_intra e s :
  snap_intra_step_time (self (on_train_batch_end e s).2)
  = snap_intra_step_time (self s).
Proof.
  destruct s as [[cfg si sn] l w].
  destruct (decide (rank e = 0)) as [Hrank|Hrank];
    [|by rewrite off_rank_end].
  destruct (on_train_batch_end_run e cfg l w Hrank)
    as (r & d & _ & _ & _ & ->).
  destruct r as [x|[]]; [done|].
  by destruct (end_timing_run e cfg si sn ((λ l0, l0 ++ d) <$> l) w)
    as (r & -> & _).
Qed.

Lemma start_sets_snap_intra e s :
  snap_intra_step_time (self (on_train_batch_start e s).2)
  = snap_intra_step_time (self s)
  ∨ snap_intra_step_time (self (on_train_batch_start e s).2)
    = Stamp (time_time e 1).
Proof.
  destruct s as [[cfg si sn] l w].
  destruct (decide (rank e = 0)) as [Hrank|Hrank];
    [|rewrite off_rank_start by done; by left].
  destruct (on_train_batch_start_run e cfg l w Hrank)
    as (r & d & _ & _ & _ & ->).
  destruct r as [x|[]]; [by left|].
  by destruct (start_timing_run e cfg si sn ((λ l0, l0 ++ d) <$> l) w)
    as (r & si' & -> & _ & Hsi & _).
Qed.

Lemma end_logs_intra_step e s t :
  rank e = 0 →
  intra_step_time (_log_stats (self s)) = true →
  snap_intra_step_time (self s) = Stamp t →
  float_truthy t = true →
  (on_train_batch_end e s).1 = inr tt →
  filter is_timing (emitted s (on_train_batch_end e s).2)
  = [({[ intra_step_key := PyFloat (elapsed_ms (time_time e 1) t) ]},
      global_step e)]
  ∧ _log_stats (self (on_train_batch_end e s).2) = _log_stats (self s).
Proof.
  destruct s as [[cfg si sn] l w]. simpl. intros Hrank Hintra -> Ht Hret.
  destruct (end_returns e cfg (Stamp t) sn l w Hrank Hret)
    as (d & Hd & -> & Hl).
  unfold timing_calls in *. rewrite Hintra, Ht in *. simpl in *.
  split; [|done]. eapply filter_timing_emitted; [done| |done].
  apply Forall_singleton, is_timing_intra.
Qed.

(** C10, for time stamps other than zero.  The end hook never changes the
    time stamp of the step start, the start hook only replaces it by a new
    reading, and the reset is what clears it.  Hence an end hook that runs
    with the step timer on while the stored stamp [t] is not zero logs
    [(now - t) * 1000] under ["batch_time/intra_step (ms)"], and so does a
    second end hook that follows it without a start hook in between. *)
Theorem step_start_stamp_persists :
  (∀ e s,
     snap_intra_step_time (self (on_train_batch_end e s).2)
     = snap_intra_step_time (self s))
  ∧ (∀ e s,
       snap_intra_step_time (self (on_train_batch_start e s).2)
       = snap_intra_step_time (self s)
       ∨ snap_intra_step_time (self (on_train_batch_start e s).2)
         = Stamp (time_time e 1))
  ∧ (∀ s, snap_intra_step_time (self (on_train_epoch_start s).2) = PyNone)
  ∧ (∀ e s t,
       rank e = 0 →
       intra_step_time (_log_stats (self s)) = true →
       snap_intra_step_time (self s) = Stamp t →
       float_truthy t = true →
       (on_train_batch_end e s).1 = inr tt →
       filter is_timing (emitted s (on_train_batch_end e s).2)
       = [({[ intra_step_key := PyFloat (elapsed_ms (time_time e 1) t) ]},
           global_step e)])
  ∧ (∀ e1 e2 s t,
       rank e1 = 0 → rank e2 = 0 →
       intra_step_time (_log_stats (self s)) = true →
       snap_intra_step_time (self s) = Stamp t →
       float_truthy t = true →
       (on_train_batch_end e1 s).1 = inr tt →
       (on_train_batch_end e2 (on_train_batch_end e1 s).2).1 = inr tt →
       filter is_timing
         (emitted (on_train_batch_end e1 s).2
            (on_train_batch_end e2 (on_train_batch_end e1 s).2).2)
       = [({[ intra_step_key := PyFloat (elapsed_ms (time_time e2 1) t) ]},
           global_step e2)]).
Proof.
  split_and!.
  - apply end_keeps_snap_intra.
  - apply start_sets_snap_intra.
  - by intros [[cfg si sn] l w].
  - intros e s t Hrank Hintra Hsnap Ht Hret.
    by apply end_logs_intra_step.
  - intros e1 e2 s t Hr1 Hr2 Hintra Hsnap Ht Hret1 Hret2.
    destruct (end_logs_intra_step e1 s t) as [_ Hcfg]; [done..|].
    apply end_logs_intra_step; [done|by rewrite Hcfg| |done..].
    by rewrite end_keeps_snap_intra.
Qed.

(** ** Time stamps that are zero *)

Lemma start_timing_falsy e cfg si t l w :
  float_truthy t = false →
  (start_timing e cfg (State (Monitor cfg si (Stamp t)) l w)).1
  = (start_timing e cfg (State (Monitor cfg si PyNone) l w)).1
  ∧ logger (start_timing e cfg (State (Monitor cfg si (Stamp t)) l w)).2
    = logger (start_timing e cfg (State (Monitor cfg si PyNone) l w)).2.
Proof.
  intros Ht. unfold start_timing.
  destruct cfg as [mem gpu intra inter fan temp], l as [l|];
    destruct inter, intra;
    simpl; unfold mbind, M_bind, bind, flag_and_attr, fmap, M_fmap, bind,
      getattr; simpl; rewrite ?Ht; done.
Qed.

Lemma end_timing_falsy e cfg sn t l w :
  float_truthy t = false →
  (end_timing e cfg (State (Monitor cfg (Stamp t) sn) l w)).1
  = (end_timing e cfg (State (Monitor cfg PyNone sn) l w)).1
  ∧ logger (end_timing e cfg (State (Monitor cfg (Stamp t) sn) l w)).2
    = logger (end_timing e cfg (State (Monitor cfg PyNone sn) l w)).2.
Proof.
  intros Ht. unfold end_timing.
  destruct cfg as [mem gpu intra inter fan temp], l as [l|];
    destruct inter, intra;
    simpl; unfold mbind, M_bind, bind, flag_and_attr, fmap, M_fmap, bind,
      getattr; simpl; rewrite ?Ht; done.
Qed.

Lemma Forall_no_key_stat_calls fields e d :
  Forall (stat_call fields e) d →
  Forall (λ c, c.1 !! inter_step_key = None) d
  ∧ Forall (λ c, c.1 !! intra_step_key = None) d.
Proof.
  intros Hd. split; (eapply Forall_impl; [done|]); intros c Hc;
    by apply stat_call_not_timing in Hc as [??].
Qed.

(** C9.  A stored time stamp counts by its truth value: when the time stamp
    of the step end is zero, the start hook logs no time between steps, and
    when the time stamp of the step start is zero, the end hook logs no time
    of the step; in both cases the hook returns and logs exactly as it does
    when the time stamp is [None]. *)
Theorem zero_time_stamp_is_absent
    (e : env) (cfg : log_stats) (si sn : attr)
    (l : option (list (gmap string number * Z))) (w : list string)
    (t : float) :
  float_truthy t = false →
  let zero_end := State (Monitor cfg si (Stamp t)) l w in
  let no_end := State (Monitor cfg si PyNone) l w in
  let zero_start := State (Monitor cfg (Stamp t) sn) l w in
  let no_start := State (Monitor cfg PyNone sn) l w in
  (Forall (λ c, c.1 !! inter_step_key = None)
     (emitted zero_end (on_train_batch_start e zero_end).2)
   ∧ (on_train_batch_start e zero_end).1 = (on_train_batch_start e no_end).1
   ∧ logger (on_train_batch_start e zero_end).2
     = logger (on_train_batch_start e no_end).2)
  ∧ (Forall (λ c, c.1 !! intra_step_key = None)
       (emitted zero_start (on_train_batch_end e zero_start).2)
     ∧ (on_train_batch_end e zero_start).1 = (on_train_batch_end e no_start).1
     ∧ logger (on_train_batch_end e zero_start).2
       = logger (on_train_batch_end e no_start).2).
Proof.
  intros Ht. simpl.
  destruct (decide (rank e = 0)) as [Hrank|Hrank];
    [|rewrite !off_rank_start, !off_rank_end, !emitted_refl by done; done].
  split.
  - destruct (on_train_batch_start_run e cfg l w Hrank)
      as (r & d & Hd & _ & _ & Hrun).
    rewrite !Hrun. apply Forall_no_key_stat_calls in Hd as [Hd _].
    destruct r as [x|[]]; [split; [by apply Forall_emitted_fmap|done]|].
    split; [|by apply start_timing_falsy].
    destruct (start_timing_run e cfg si (Stamp t) ((λ l0, l0 ++ d) <$> l) w)
      as (r & si' & -> & _).
    unfold timing_calls. rewrite Ht, andb_false_r, fmap_app_nil.
    by apply Forall_emitted_fmap.
  - destruct (on_train_batch_end_run e cfg l w Hrank)
      as (r & d & Hd & _ & _ & Hrun).
    rewrite !Hrun. apply Forall_no_key_stat_calls in Hd as [_ Hd].
    destruct r as [x|[]]; [split; [by apply Forall_emitted_fmap|done]|].
    split; [|by apply end_timing_falsy].
    destruct (end_timing_run e cfg (Stamp t) sn ((λ l0, l0 ++ d) <$> l) w)
      as (r & -> & _).
    unfold timing_calls. rewrite Ht, andb_false_r, fmap_app_nil.
    by apply Forall_emitted_fmap.
Qed.

(** ** The memory batches *)

Lemma is_memory_other e c : stat_call other_fields e c → ¬ is_memory c.
Proof.
  intros (_ & pitem & unit & Hp & Hm).
  assert (∀ pm um, pm ∈ memory_fields →
            c.1 !! stat_name pm 0 um = None) as Hnone.
  { intros pm um Hpm. apply eq_None_not_Some. intros Hk.
    destruct (get_gpu_stat_key _ _ _ _ _ Hm Hk) as [i Hi].
    unfold other_fields, memory_fields in *.
    repeat (apply elem_of_cons in Hp as [->|Hp]);
      [..|by apply elem_of_nil in Hp];
      repeat (apply elem_of_cons in Hpm as [->|Hpm]);
      try (by apply elem_of_nil in Hpm); discriminate Hi. }
  unfold is_memory.
  rewrite !has_key_None; [by intros []|apply Hnone; solve_fields..].
Qed.

Lemma is_memory_timing_calls e flag key now snap :
  key = intra_step_key ∨ key = inter_step_key →
  Forall (λ c, ¬ is_memory c) (timing_calls e flag key now snap).
Proof.
  intros Hkey. unfold timing_calls.
  destruct snap as [| |t]; [done..|]. destruct (flag && float_truthy t); [|done].
  apply Forall_singleton. unfold is_memory.
  rewrite !has_key_None; [by intros []|simpl..];
    (rewrite lookup_singleton_ne; [done|]);
    by destruct Hkey as [-> | ->].
Qed.

Lemma is_memory_sampled e pitem unit m step :
  (pitem = "memory.used" ∧ unit = "MB")
  ∨ (pitem = "memory.free" ∧ unit = "MB")
  ∨ (pitem = "utilization.memory" ∧ unit = "%") →
  _get_gpu_stat e pitem unit = inr m →
  is_memory (m, step).
Proof.
  intros Hp Hm%get_gpu_stat_device_0. unfold is_memory.
  destruct Hp as [[-> ->]|[[-> ->]|[-> ->]]].
  - by rewrite (has_key_Some (stat_name "memory.used" 0 "MB")).
  - rewrite (has_key_Some (stat_name "memory.free" 0 "MB")) by done.
    by rewrite orb_true_r.
  - rewrite (has_key_Some (stat_name "utilization.memory" 0 "%")) by done.
    by rewrite orb_true_r.
Qed.

Lemma filter_Forall_not {A} (P : A → Prop) `{!∀ x, Decision (P x)}
    (l : list A) :
  Forall (λ x, ¬ P x) l → filter P l = [].
Proof.
  induction 1 as [|x l Hx _ IH]; [done|]. by rewrite filter_cons_False.
Qed.

(** [_log_memory] in front of the rest [k] of a hook that returns: the
    three queries went through and their batches were logged one by one. *)
Lemma log_memory_then {B} e (k : M B) mon l w r :
  ((_log_memory e;; k) (State mon l w)).1 = inr r →
  ∃ l0 used free util,
    l = Some l0
    ∧ _get_gpu_stat e "memory.used" "MB" = inr used
    ∧ _get_gpu_stat e "memory.free" "MB" = inr free
    ∧ _get_gpu_stat e "utilization.memory" "%" = inr util
    ∧ (_log_memory e;; k) (State mon l w)
      = k (State mon
             (Some (l0 ++ [(used, global_step e); (free, global_step e);
                           (util, global_step e)])) w).
Proof.
  unfold _log_memory, log_gpu_stat, log_metrics, lift, append_call.
  rewrite !run_bind. destruct l as [l0|]; simpl; [|done].
  unfold bind.
  destruct (_get_gpu_stat e "memory.used" "MB") as [x|used]; simpl; [done|].
  destruct (_get_gpu_stat e "memory.free" "MB") as [x|free]; simpl; [done|].
  destruct (_get_gpu_stat e "utilization.memory" "%") as [x|util]; simpl;
    [done|].
  intros _. exists l0, used, free, util. split_and!; [done..|].
  by rewrite <-!app_assoc.
Qed.

Lemma start_unfold e cfg si sn l w :
  rank e = 0 →
  on_train_batch_start e (State (Monitor cfg si sn) l w)
  = (when (gpu_utilization cfg) (_log_usage e);;
     when (memory_utilization cfg) (_log_memory e);;
     start_timing e cfg) (State (Monitor cfg si sn) l w).
Proof.
  intros Hrank. unfold on_train_batch_start, rank_zero_only.
  by rewrite decide_True by done.
Qed.

Lemma end_unfold e cfg si sn l w :
  rank e = 0 →
  on_train_batch_end e (State (Monitor cfg si sn) l w)
  = (when (gpu_utilization cfg) (_log_usage e);;
     when (memory_utilization cfg) (_log_memory e);;
     (when (fan_speed cfg) (log_gpu_stat e "fan.speed" "%");;
      when (temperature cfg)
        (log_gpu_stat e "temperature.gpu" "degrees C";;
         log_gpu_stat e "temperature.memory" "degrees C"));;
     end_timing e cfg) (State (Monitor cfg si sn) l w).
Proof.
  intros Hrank. unfold on_train_batch_end, rank_zero_only.
  rewrite decide_True by done. rewrite run_bind. simpl.
  rewrite !run_bind.
  destruct (when (gpu_utilization cfg) (_log_usage e) _) as [[x|[]] s1]; [done|].
  rewrite !run_bind.
  destruct (when (memory_utilization cfg) (_log_memory e) _) as [[x|[]] s2];
    [done|].
  rewrite !run_bind.
  by destruct (when (fan_speed cfg) _ _) as [[x|[]] s3].
Qed.

Lemma stat_calls_not_memory fields e d :
  fields ⊆ other_fields →
  Forall (stat_call fields e) d → filter is_memory d = [].
Proof.
  intros Hsub Hd. apply filter_Forall_not.
  eapply Forall_impl; [done|]. intros c Hc.
  eapply is_memory_other, stat_call_mono; done.
Qed.

Lemma filter_memory_calls e used free util :
  _get_gpu_stat e "memory.used" "MB" = inr used →
  _get_gpu_stat e "memory.free" "MB" = inr free →
  _get_gpu_stat e "utilization.memory" "%" = inr util →
  filter is_memory
    [(used, global_step e); (free, global_step e); (util, global_step e)]
  = [(used, global_step e); (free, global_step e); (util, global_step e)].
Proof.
  intros Hused Hfree Hutil. apply filter_Forall.
  repeat apply Forall_cons_2; [..|done];
    eapply is_memory_sampled; [|done| |done| |done]; tauto.
Qed.

Lemma start_logs_memory e cfg si sn l w :
  rank e = 0 →
  memory_utilization cfg = true →
  (on_train_batch_start e (State (Monitor cfg si sn) l w)).1 = inr tt →
  ∃ used free util : gmap string number,
    _get_gpu_stat e "memory.used" "MB" = inr used
    ∧ _get_gpu_stat e "memory.free" "MB" = inr free
    ∧ _get_gpu_stat e "utilization.memory" "%" = inr util
    ∧ filter is_memory
        (emitted (State (Monitor cfg si sn) l w)
           (on_train_batch_start e (State (Monitor cfg si sn) l w)).2)
      = [(used, global_step e); (free, global_step e); (util, global_step e)].
Proof.
  intros Hrank Hmem. rewrite start_unfold, Hmem by done.
  change (when true (_log_memory e)) with (_log_memory e).
  destruct (sampling_then ["utilization.gpu"] e
              (when (gpu_utilization cfg) (_log_usage e))
              (_log_memory e;; start_timing e cfg) l w
              (sampling_when _ _ _ _ (sampling_log_usage e)))
    as (r1 & d1 & Hd1 & _ & _ & ->).
  destruct r1 as [x|[]]; [done|]. intros Hret.
  destruct (log_memory_then e _ _ _ _ _ Hret)
    as (l1 & used & free & util & Hl & Hused & Hfree & Hutil & ->).
  clear Hret.
  destruct (start_timing_run e cfg si sn
              (Some (l1 ++ [(used, global_step e); (free, global_step e);
                            (util, global_step e)])) w)
    as (r & si' & -> & _).
  exists used, free, util. split_and!; [done..|].
  destruct l as [l0|]; [|done]. injection Hl as <-.
  unfold emitted, calls. simpl. rewrite <-!app_assoc, drop_app_length.
  rewrite !filter_app, (stat_calls_not_memory ["utilization.gpu"] e d1),
    filter_memory_calls, (filter_Forall_not is_memory (timing_calls _ _ _ _ _));
    [by rewrite app_nil_r| |done..|solve_fields|done].
  apply is_memory_timing_calls. by right.
Qed.

Lemma end_logs_memory e cfg si sn l w :
  rank e = 0 →
  memory_utilization cfg = true →
  (on_train_batch_end e (State (Monitor cfg si sn) l w)).1 = inr tt →
  ∃ used free util : gmap string number,
    _get_gpu_stat e "memory.used" "MB" = inr used
    ∧ _get_gpu_stat e "memory.free" "MB" = inr free
    ∧ _get_gpu_stat e "utilization.memory" "%" = inr util
    ∧ filter is_memory
        (emitted (State (Monitor cfg si sn) l w)
           (on_train_batch_end e (State (Monitor cfg si sn) l w)).2)
      = [(used, global_step e); (free, global_step e); (util, global_step e)].
Proof.
  intros Hrank Hmem. rewrite end_unfold, Hmem by done.
  change (when true (_log_memory e)) with (_log_memory e).
  destruct (sampling_then ["utilization.gpu"] e
              (when (gpu_utilization cfg) (_log_usage e))
              (_log_memory e;;
               (when (fan_speed cfg) (log_gpu_stat e "fan.speed" "%");;
                when (temperature cfg)
                  (log_gpu_stat e "temperature.gpu" "degrees C";;
                   log_gpu_stat e "temperature.memory" "degrees C"));;
               end_timing e cfg) l w
              (sampling_when _ _ _ _ (sampling_log_usage e)))
    as (r1 & d1 & Hd1 & _ & _ & ->).
  destruct r1 as [x|[]]; [done|]. intros Hret.
  destruct (log_memory_then e _ _ _ _ _ Hret)
    as (l1 & used & free & util & Hl & Hused & Hfree & Hutil & Hrun).
  rewrite Hrun in Hret |- *. clear Hrun.
  destruct (sampling_then _ e _ (end_timing e cfg)
              (Some (l1 ++ [(used, global_step e); (free, global_step e);
                            (util, global_step e)])) w
              (sampling_fan_temperature e cfg))
    as (r3 & d3 & Hd3 & _ & _ & Hrun).
  rewrite Hrun in Hret |- *. clear Hrun.
  destruct r3 as [x|[]]; [done|]. clear Hret.
  destruct (end_timing_run e cfg si sn
              ((λ l2, l2 ++ d3) <$>
               Some (l1 ++ [(used, global_step e); (free, global_step e);
                            (util, global_step e)])) w)
    as (r & -> & _).
  exists used, free, util. split_and!; [done..|].
  destruct l as [l0|]; [|done]. injection Hl as <-.
  unfold emitted, calls. simpl. rewrite <-!app_assoc, drop_app_length.
  rewrite !filter_app, (stat_calls_not_memory ["utilization.gpu"] e d1),
    filter_memory_calls,
    (stat_calls_not_memory
       ["fan.speed"; "temperature.gpu"; "temperature.memory"] e d3),
    (filter_Forall_not is_memory (timing_calls _ _ _ _ _));
    [by rewrite !app_nil_r| |solve_fields|done..
    |solve_fields|done].
  apply is_memory_timing_calls. by left.
Qed.

(** C7.  With memory sampling on, a start hook and an end hook that return
    in the process of rank 0 log the memory readings as three calls of
    their own: the batch of [memory.used], then that of [memory.free], then
    that of [utilization.memory], each under the current step; no other
    call of the hook carries a memory batch. *)
Theorem memory_logged_in_three_calls (e : env) (s : state) (hook : M unit) :
  rank e = 0 →
  memory_utilization (_log_stats (self s)) = true →
  hook = on_train_batch_start e ∨ hook = on_train_batch_end e →
  (hook s).1 = inr tt →
  ∃ used free util : gmap string number,
    _get_gpu_stat e "memory.used" "MB" = inr used
    ∧ _get_gpu_stat e "memory.free" "MB" = inr free
    ∧ _get_gpu_stat e "utilization.memory" "%" = inr util
    ∧ filter is_memory (emitted s (hook s).2)
      = [(used, global_step e); (free, global_step e); (util, global_step e)].
Proof.
  destruct s as [[cfg si sn] l w]. simpl.
  intros Hrank Hmem [-> | ->];
    [by apply start_logs_memory|by apply end_logs_memory].
Qed.

(** ** Configuration errors *)

Lemma start_no_misconfiguration e s msg :
  (on_train_batch_start e s).1 ≠ inl (MisconfigurationException msg).
Proof.
  destruct s as [[cfg si sn] l w].
  destruct (decide (rank e = 0)) as [Hrank|Hrank];
    [|by rewrite off_rank_start].
  destruct (on_train_batch_start_run e cfg l w Hrank)
    as (r & d & _ & _ & Hmis & ->).
  destruct r as [x|[]]; [apply Hmis|].
  by destruct (start_timing_run e cfg si sn ((λ l0, l0 ++ d) <$> l) w)
    as (r & si' & -> & Hmis' & _).
Qed.

Lemma end_no_misconfiguration e s msg :
  (on_train_batch_end e s).1 ≠ inl (MisconfigurationException msg).
Proof.
  destruct s as [[cfg si sn] l w].
  destruct (decide (rank e = 0)) as [Hrank|Hrank];
    [|by rewrite off_rank_end].
  destruct (on_train_batch_end_run e cfg l w Hrank)
    as (r & d & _ & _ & Hmis & ->).
  destruct r as [x|[]]; [apply Hmis|].
  by destruct (end_timing_run e cfg si sn ((λ l0, l0 ++ d) <$> l) w)
    as (r & -> & Hmis' & _).
Qed.

Lemma start_without_logger e mon w :
  logger (on_train_batch_start e (State mon None w)).2 = None.
Proof.
  destruct mon as [cfg si sn].
  destruct (decide (rank e = 0)) as [Hrank|Hrank];
    [|by rewrite off_rank_start].
  destruct (on_train_batch_start_run e cfg None w Hrank)
    as (r & d & _ & _ & _ & ->).
  destruct r as [x|[]]; [done|].
  by destruct (start_timing_run e cfg si sn ((λ l0, l0 ++ d) <$> None) w)
    as (r & si' & -> & _).
Qed.

Lemma end_without_logger e mon w :
  logger (on_train_batch_end e (State mon None w)).2 = None.
Proof.
  destruct mon as [cfg si sn].
  destruct (decide (rank e = 0)) as [Hrank|Hrank];
    [|by rewrite off_rank_end].
  destruct (on_train_batch_end_run e cfg None w Hrank)
    as (r & d & _ & _ & _ & ->).
  destruct r as [x|[]]; [done|].
  by destruct (end_timing_run e cfg si sn ((λ l0, l0 ++ d) <$> None) w)
    as (r & -> & _).
Qed.

(** C8.  The two configuration errors are raised once, ahead of every
    sample.  Without the query tool the constructor raises
    [MisconfigurationException] and there is no monitor; without a logger
    [on_train_start] raises it, leaves the state as it was, and nothing that
    would follow it runs.  Neither of them touches the logger, the step
    hooks never raise this exception, and no call of a step hook reaches a
    logger that is not there. *)
Theorem configuration_checked_once :
  (∀ flags,
     __init__ None flags = inl (MisconfigurationException nvidia_driver_msg))
  ∧ (∀ e mon w (rest : M unit),
       (on_train_start e;; rest) (State mon None w)
       = (inl (MisconfigurationException no_logger_msg), State mon None w))
  ∧ (∀ e s, logger (on_train_start e s).2 = logger s)
  ∧ (∀ e s msg,
       (on_train_batch_start e s).1 ≠ inl (MisconfigurationException msg)
       ∧ (on_train_batch_end e s).1 ≠ inl (MisconfigurationException msg))
  ∧ (∀ e mon w,
       logger (on_train_batch_start e (State mon None w)).2 = None
       ∧ logger (on_train_batch_end e (State mon None w)).2 = None).
Proof.
  split_and!.
  - done.
  - done.
  - intros e [mon [l|] w]; [|done].
    unfold on_train_start, rank_zero_warn, rank_zero_only. simpl.
    destruct (on_gpu e); simpl; [done|]. by case_decide.
  - intros e s msg.
    split; [apply start_no_misconfiguration|apply end_no_misconfiguration].
  - intros e mon w.
    split; [apply start_without_logger|apply end_without_logger].
Qed.

(** * Further properties of the callback *)

(** ** What [_get_gpu_stat] returns *)

(** X1.  [_get_gpu_stat] returns a mapping exactly when the tool is found,
    what it writes decodes as UTF-8 and the query exits with status 0: once
    decoded, the text of the output never makes it raise. *)
Theorem get_gpu_stat_returns_iff (e : env) (pitem unit : string) :
  (∃ m, _get_gpu_stat e pitem unit = inr m)
  ↔ is_Some (which_nvidia_smi e)
    ∧ ∃ stdout, nvidia_smi e pitem = Exited 0 stdout.
Proof.
  split.
  - intros [m Hm]. unfold _get_gpu_stat, subprocess_run in Hm.
    destruct (which_nvidia_smi e) as [path|]; [|done].
    destruct (nvidia_smi e pitem) as [rc stdout|rc|]; [|done..].
    case_decide as Hrc; [|done]. subst rc. split; by eexists.
  - intros [[path Hwhich] [stdout Hrun]].
    eexists. by apply (get_gpu_stat_ok _ _ _ _ _ Hwhich Hrun).
Qed.

(** X2.  A mapping returned by [_get_gpu_stat] is never empty and has no
    gaps: its entries are the names of the device indices below its size,
    and the entry of device 0 is always there. *)
Theorem get_gpu_stat_devices (e : env) (pitem unit : string)
    (m : gmap string number) :
  _get_gpu_stat e pitem unit = inr m →
  0 < size m
  ∧ (∀ index, is_Some (m !! stat_name pitem index unit) ↔ index < size m)
  ∧ (∀ key, is_Some (m !! key) →
            ∃ index, index < size m ∧ key = stat_name pitem index unit).
Proof.
  intros (usage & Hne & ->)%get_gpu_stat_inv.
  rewrite (dict_of_imap_size (λ i, stat_name pitem i unit)).
  split_and!.
  - destruct usage; [done|simpl; lia].
  - intros index.
    rewrite (dict_of_imap_lookup (λ i, stat_name pitem i unit)).
    apply lookup_lt_is_Some.
  - intros key Hkey.
    by apply (dict_of_imap_key (λ i, stat_name pitem i unit)) in Hkey.
Qed.

Lemma sampled_names_differ q q' index index' :
  q ∈ sampled_fields → q' ∈ sampled_fields →
  stat_name q.1 index q.2 = stat_name q'.1 index' q'.2 →
  q = q'.
Proof.
  unfold sampled_fields. intros Hq Hq' Hname.
  repeat (apply elem_of_cons in Hq as [->|Hq]);
    [..|by apply elem_of_nil in Hq];
    repeat (apply elem_of_cons in Hq' as [->|Hq']);
    try (by apply elem_of_nil in Hq'); try reflexivity;
    discriminate Hname.
Qed.

(** X3.  The batches of two different fields that the hooks sample have no
    metric name in common, and no batch has the name of a step time: the
    calls of one step never overwrite one another at the logger. *)
Theorem sampled_batches_disjoint (e e' : env) (q q' : string * string)
    (m m' : gmap string number) :
  q ∈ sampled_fields → q' ∈ sampled_fields → q ≠ q' →
  _get_gpu_stat e q.1 q.2 = inr m →
  _get_gpu_stat e' q'.1 q'.2 = inr m' →
  m ##ₘ m'
  ∧ m !! inter_step_key = None ∧ m !! intra_step_key = None.
Proof.
  intros Hq Hq' Hne Hm Hm'. split_and!.
  - apply map_disjoint_spec. intros key v v' Hv Hv'.
    destruct (get_gpu_stat_key _ _ _ _ key Hm) as [i Hi]; [by eexists|].
    destruct (get_gpu_stat_key _ _ _ _ key Hm') as [i' Hi']; [by eexists|].
    apply Hne. eapply sampled_names_differ; [done..|]. by rewrite <-Hi, <-Hi'.
  - apply eq_None_not_Some. intros Hk.
    destruct (get_gpu_stat_key _ _ _ _ _ Hm Hk) as [i Hi].
    symmetry in Hi. by apply stat_name_not_timing in Hi.
  - apply eq_None_not_Some. intros Hk.
    destruct (get_gpu_stat_key _ _ _ _ _ Hm Hk) as [i Hi].
    symmetry in Hi. by apply stat_name_not_timing in Hi.
Qed.

(** ** White space around the output *)

Lemma string_app_assoc (s1 s2 s3 : string) :
  (s1 +:+ s2) +:+ s3 = s1 +:+ (s2 +:+ s3).
Proof.
  induction s1 as [|c s1 IH]; [done|].
  change (String c ((s1 +:+ s2) +:+ s3) = String c (s1 +:+ (s2 +:+ s3))).
  by rewrite IH.
Qed.

Lemma string_app_nil_r (s : string) : s +:+ "" = s.
Proof.
  induction s as [|c s IH]; [done|].
  change (String c (s +:+ "") = String c s). by rewrite IH.
Qed.

Lemma rev_app_spec (s acc : string) :
  String.rev_app s acc = String.rev s +:+ acc.
Proof.
  unfold String.rev. revert acc. induction s as [|c s IH]; intros acc; [done|].
  simpl. rewrite IH, (IH (String c "")). by rewrite string_app_assoc.
Qed.

Lemma string_rev_app (s1 s2 : string) :
  String.rev (s1 +:+ s2) = String.rev s2 +:+ String.rev s1.
Proof.
  induction s1 as [|c s1 IH]; [by rewrite string_app_nil_r|].
  change (String.rev_app (s1 +:+ s2) (String c "")
          = String.rev s2 +:+ String.rev_app s1 (String c "")).
  by rewrite !rev_app_spec, IH, string_app_assoc.
Qed.

Lemma blank_app (s1 s2 : string) :
  blank (s1 +:+ s2) = blank s1 && blank s2.
Proof.
  induction s1 as [|c s1 IH]; [done|].
  change (py_isspace c && blank (s1 +:+ s2)
          = py_isspace c && blank s1 && blank s2).
  by rewrite IH, andb_assoc.
Qed.

Lemma blank_rev (s : string) : blank (String.rev s) = blank s.
Proof.
  induction s as [|c s IH]; [done|].
  change (blank (String.rev_app s (String c "")) = py_isspace c && blank s).
  rewrite rev_app_spec, blank_app, IH. simpl.
  by rewrite andb_true_r, andb_comm.
Qed.

Lemma lstrip_blank_app (ws s : string) :
  blank ws = true → py_lstrip (ws +:+ s) = py_lstrip s.
Proof.
  induction ws as [|c ws IH]; [done|]. simpl. intros [Hc Hws]%andb_true_iff.
  change (py_lstrip (String c (ws +:+ s)) = py_lstrip s).
  simpl. rewrite Hc. by apply IH.
Qed.

Lemma lstrip_blank (ws : string) : blank ws = true → py_lstrip ws = "".
Proof.
  intros Hws. by rewrite <-(string_app_nil_r ws), lstrip_blank_app.
Qed.

Lemma lstrip_app (s t : string) :
  py_lstrip (s +:+ t)
  = match py_lstrip s with
    | EmptyString => py_lstrip t
    | r => r +:+ t
    end.
Proof.
  induction s as [|c s IH]; [done|].
  change (py_lstrip (String c (s +:+ t))
          = match py_lstrip (String c s) with
            | EmptyString => py_lstrip t
            | r => r +:+ t
            end).
  simpl. by destruct (py_isspace c).
Qed.

Lemma rstrip_app_blank (s ws : string) :
  blank ws = true → py_rstrip (s +:+ ws) = py_rstrip s.
Proof.
  intros Hws. unfold py_rstrip.
  by rewrite string_rev_app, lstrip_blank_app by (by rewrite blank_rev).
Qed.

Lemma strip_blank_l (ws s : string) :
  blank ws = true → py_strip (ws +:+ s) = py_strip s.
Proof. intros Hws. unfold py_strip. by rewrite lstrip_blank_app. Qed.

Lemma strip_blank_r (s ws : string) :
  blank ws = true → py_strip (s +:+ ws) = py_strip s.
Proof.
  intros Hws. unfold py_strip. rewrite lstrip_app.
  destruct (py_lstrip s) as [|c r] eqn:Hs.
  - by rewrite lstrip_blank.
  - by apply rstrip_app_blank.
Qed.

(** X4.  White space around the output of the tool, such as the line feed
    that ends its last line, does not change what [_get_gpu_stat] returns:
    in particular it adds no reading. *)
Theorem get_gpu_stat_ignores_outer_space
    (e e' : env) (pitem unit stdout before after : string) :
  blank before = true →
  blank after = true →
  which_nvidia_smi e' = which_nvidia_smi e →
  nvidia_smi e pitem = Exited 0 stdout →
  nvidia_smi e' pitem = Exited 0 (before +:+ stdout +:+ after) →
  _get_gpu_stat e' pitem unit = _get_gpu_stat e pitem unit.
Proof.
  intros Hbefore Hafter Hwhich Hrun Hrun'.
  unfold _get_gpu_stat, parse_gpu_usage. rewrite Hwhich, Hrun, Hrun'.
  destruct (which_nvidia_smi e); [|done]. simpl.
  by rewrite strip_blank_l, strip_blank_r.
Qed.

(** ** The order of the calls of a hook *)

Lemma logs_in_order_skip e : logs_in_order [] e (mret tt).
Proof.
  intros mon l w s' [= <-]. exists []. split; [done|].
  simpl. by rewrite fmap_app_nil.
Qed.

Lemma logs_in_order_log_gpu_stat e pitem unit :
  logs_in_order [(pitem, unit)] e (log_gpu_stat e pitem unit).
Proof.
  intros mon l w s'.
  unfold log_gpu_stat, log_metrics, lift, bind, append_call.
  destruct l as [l|]; simpl; [|done].
  destruct (_get_gpu_stat e pitem unit) as [x|m] eqn:Hm; [done|].
  intros [= <-]. exists [m]. split; [|done]. by repeat constructor.
Qed.

Lemma logs_in_order_seq qs1 qs2 e (c1 c2 : M unit) :
  logs_in_order qs1 e c1 → logs_in_order qs2 e c2 →
  logs_in_order (qs1 ++ qs2) e (c1;; c2).
Proof.
  intros H1 H2 mon l w s'. rewrite run_bind.
  destruct (c1 (State mon l w)) as [[x|[]] s1] eqn:Hc1; [done|].
  destruct (H1 _ _ _ _ Hc1) as (b1 & Hb1 & ->). intros Hc2.
  destruct (H2 _ _ _ _ Hc2) as (b2 & Hb2 & ->).
  exists (b1 ++ b2). split; [by apply Forall2_app|].
  by rewrite fmap_app_app, fmap_app.
Qed.

Lemma logs_in_order_when qs e (b : bool) (c : M unit) :
  logs_in_order qs e c → logs_in_order (if b then qs else []) e (when b c).
Proof. destruct b; [done|]. intros _. apply logs_in_order_skip. Qed.

Lemma logs_in_order_start e cfg :
  logs_in_order (start_queries cfg) e
    (when (gpu_utilization cfg) (_log_usage e);;
     when (memory_utilization cfg) (_log_memory e)).
Proof.
  apply logs_in_order_seq; apply logs_in_order_when.
  - apply logs_in_order_log_gpu_stat.
  - apply (logs_in_order_seq [_] [_; _]); [|apply (logs_in_order_seq [_] [_])];
      apply logs_in_order_log_gpu_stat.
Qed.

Lemma logs_in_order_end e cfg :
  logs_in_order (end_queries cfg) e
    ((when (gpu_utilization cfg) (_log_usage e);;
      when (memory_utilization cfg) (_log_memory e));;
     (when (fan_speed cfg) (log_gpu_stat e "fan.speed" "%");;
      when (temperature cfg)
        (log_gpu_stat e "temperature.gpu" "degrees C";;
         log_gpu_stat e "temperature.memory" "degrees C"))).
Proof.
  apply logs_in_order_seq; [apply logs_in_order_start|].
  apply logs_in_order_seq; apply logs_in_order_when.
  - apply logs_in_order_log_gpu_stat.
  - apply (logs_in_order_seq [_] [_]); apply logs_in_order_log_gpu_stat.
Qed.

Lemma emitted_fmap_Some mon mon' l w w' d :
  is_Some l ∨ d = [] →
  emitted (State mon l w) (State mon' ((λ l0, l0 ++ d) <$> l) w') = d.
Proof.
  rewrite emitted_fmap. destruct l; [done|]. intros [[??]| ->]; done.
Qed.

(** X5.  A start hook that returns in the process of rank 0 has made, in
    this order, one call per query of its body that is switched on
    ([utilization.gpu], then [memory.used], [memory.free] and
    [utilization.memory]), each with the batch [_get_gpu_stat] returned,
    and last the call of the time between steps, if there is one. *)
Theorem start_hook_calls (e : env) (s : state) :
  rank e = 0 →
  (on_train_batch_start e s).1 = inr tt →
  ∃ batches : list (gmap string number),
    Forall2 (λ q m, _get_gpu_stat e q.1 q.2 = inr m)
      (start_queries (_log_stats (self s))) batches
    ∧ emitted s (on_train_batch_start e s).2
      = ((λ m, (m, global_step e)) <$> batches)
        ++ timing_calls e (inter_step_time (_log_stats (self s)))
             inter_step_key (time_time e 0)
             (snap_inter_step_time (self s)).
Proof.
  destruct s as [[cfg si sn] l w]. simpl. intros Hrank.
  rewrite start_unfold by done.
  rewrite (bind_assoc_run _ (λ _, _) (λ _, start_timing e cfg)), run_bind.
  destruct ((when (gpu_utilization cfg) (_log_usage e);;
             when (memory_utilization cfg) (_log_memory e)) _)
    as [[x|[]] s1] eqn:Hsample; [done|].
  destruct (logs_in_order_start e cfg _ _ _ _ Hsample) as (batches & Hb & ->).
  destruct (start_timing_run e cfg si sn
              ((λ l0, l0 ++ ((λ m, (m, global_step e)) <$> batches)) <$> l) w)
    as (r & si' & -> & _ & _ & Hret & _).
  simpl. intros ->. destruct Hret as [_ Hl]; [done|].
  exists batches. split; [done|].
  rewrite fmap_app_app. apply emitted_fmap_Some.
  destruct l as [l|]; [left; by eexists|right].
  destruct batches as [|m batches];
    [|destruct (timing_calls _ _ _ _ _)].
  - destruct (timing_calls e _ _ _ sn); [done|]. by destruct Hl as [??].
  - simpl in Hsample.
    apply Forall2_cons_inv_r in Hb as (q & qs & Hq & _ & Hqs).
    exfalso. revert Hsample. rewrite run_bind.
    unfold start_queries in Hqs.
    destruct (gpu_utilization cfg), (memory_utilization cfg); done.
  - by destruct Hl as [??].
Qed.

(** X6.  An end hook that returns in the process of rank 0 has made, in
    this order, one call per query of its body that is switched on
    ([utilization.gpu]; [memory.used], [memory.free], [utilization.memory];
    [fan.speed]; [temperature.gpu], [temperature.memory]), each with the
    batch [_get_gpu_stat] returned, and last the call of the time of the
    step, if there is one. *)
Theorem end_hook_calls (e : env) (s : state) :
  rank e = 0 →
  (on_train_batch_end e s).1 = inr tt →
  ∃ batches : list (gmap string number),
    Forall2 (λ q m, _get_gpu_stat e q.1 q.2 = inr m)
      (end_queries (_log_stats (self s))) batches
    ∧ emitted s (on_train_batch_end e s).2
      = ((λ m, (m, global_step e)) <$> batches)
        ++ timing_calls e (intra_step_time (_log_stats (self s)))
             intra_step_key (time_time e 1)
             (snap_intra_step_time (self s)).
Proof.
  destruct s as [[cfg si sn] l w]. simpl. intros Hrank.
  rewrite end_unfold by done.
  rewrite (bind_assoc_run _ (λ _, _) (λ _, _)).
  rewrite (bind_assoc_run _ (λ _, _) (λ _, end_timing e cfg)), run_bind.
  destruct (((when (gpu_utilization cfg) (_log_usage e);;
              when (memory_utilization cfg) (_log_memory e));;
             (when (fan_speed cfg) (log_gpu_stat e "fan.speed" "%");;
              when (temperature cfg)
                (log_gpu_stat e "temperature.gpu" "degrees C";;
                 log_gpu_stat e "temperature.memory" "degrees C"))) _)
    as [[x|[]] s1] eqn:Hsample; [done|].
  destruct (logs_in_order_end e cfg _ _ _ _ Hsample) as (batches & Hb & ->).
  destruct (end_timing_run e cfg si sn
              ((λ l0, l0 ++ ((λ m, (m, global_step e)) <$> batches)) <$> l) w)
    as (r & -> & _ & Hl & _).
  simpl. intros ->. specialize (Hl eq_refl).
  exists batches. split; [done|].
  rewrite fmap_app_app. apply emitted_fmap_Some.
  destruct l as [l|]; [left; by eexists|right].
  destruct batches as [|m batches];
    [|destruct (timing_calls _ _ _ _ _)].
  - destruct (timing_calls e _ _ _ si); [done|].
    by destruct Hl as [??].
  - apply Forall2_cons_inv_r in Hb as (q & qs & Hq & _ & Hqs).
    exfalso. revert Hsample. rewrite !run_bind.
    unfold end_queries, start_queries in Hqs.
    destruct (gpu_utilization cfg), (memory_utilization cfg),
      (fan_speed cfg), (temperature cfg); done.
  - by destruct Hl as [??].
Qed.

(** ** What the hooks never do *)

Lemma timing_calls_step e flag key now snap :
  Forall (λ c, c.2 = global_step e) (timing_calls e flag key now snap).
Proof.
  unfold timing_calls. destruct snap as [| |t]; [done..|].
  destruct (flag && float_truthy t); [|done]. by apply Forall_singleton.
Qed.

Lemma stat_calls_step fields e d :
  Forall (stat_call fields e) d → Forall (λ c, c.2 = global_step e) d.
Proof. intros Hd. eapply Forall_impl; [done|]. by intros c [? _]. Qed.

(** X7.  Every call a step hook makes, whether the hook returns or raises,
    is made under the [global_step] of that hook call. *)
Theorem calls_under_current_step (e : env) (s : state) :
  Forall (λ c, c.2 = global_step e) (emitted s (on_train_batch_start e s).2)
  ∧ Forall (λ c, c.2 = global_step e) (emitted s (on_train_batch_end e s).2).
Proof.
  destruct s as [[cfg si sn] l w].
  destruct (decide (rank e = 0)) as [Hrank|Hrank];
    [|by rewrite off_rank_start, off_rank_end, emitted_refl by done].
  split.
  - destruct (on_train_batch_start_run e cfg l w Hrank)
      as (r & d & Hd%stat_calls_step & _ & _ & ->).
    destruct r as [x|[]]; [by apply Forall_emitted_fmap|].
    destruct (start_timing_run e cfg si sn ((λ l0, l0 ++ d) <$> l) w)
      as (r & si' & -> & _).
    simpl. rewrite fmap_app_app. apply Forall_emitted_fmap, Forall_app.
    split; [done|apply timing_calls_step].
  - destruct (on_train_batch_end_run e cfg l w Hrank)
      as (r & d & Hd%stat_calls_step & _ & _ & ->).
    destruct r as [x|[]]; [by apply Forall_emitted_fmap|].
    destruct (end_timing_run e cfg si sn ((λ l0, l0 ++ d) <$> l) w)
      as (r & -> & _).
    simpl. rewrite fmap_app_app. apply Forall_emitted_fmap, Forall_app.
    split; [done|apply timing_calls_step].
Qed.

Lemma start_timing_error e cfg si sn l w x :
  (start_timing e cfg (State (Monitor cfg si sn) l w)).1 = inl x →
  self (start_timing e cfg (State (Monitor cfg si sn) l w)).2
  = Monitor cfg si sn.
Proof.
  unfold start_timing.
  destruct cfg as [mem gpu intra inter fan temp], l as [l|];
    destruct inter, intra, sn as [| |t]; try destruct (float_truthy t) eqn:Ht;
    simpl; unfold mbind, M_bind, bind, flag_and_attr, fmap, M_fmap, bind,
      getattr, log_metrics, timing_metrics, mbind, M_bind, bind, getattr;
    simpl; rewrite ?Ht; simpl; done.
Qed.

(** X8.  A start hook that raises, be it for a failed query, a missing
    logger or a missing attribute, leaves the monitor as it was: the start
    of the step is recorded only by a hook that returns. *)
Theorem start_error_keeps_monitor (e : env) (s : state) (x : exn) :
  (on_train_batch_start e s).1 = inl x →
  self (on_train_batch_start e s).2 = self s.
Proof.
  destruct s as [[cfg si sn] l w].
  destruct (decide (rank e = 0)) as [Hrank|Hrank];
    [|by rewrite off_rank_start].
  destruct (on_train_batch_start_run e cfg l w Hrank)
    as (r & d & _ & _ & _ & ->).
  destruct r as [x'|[]]; [done|]. apply start_timing_error.
Qed.

Lemma call_hook_frame (h : hook_call) (s : state) :
  _log_stats (self (call_hook h s).2) = _log_stats (self s)
  ∧ ∃ d, logger (call_hook h s).2 = (λ l, l ++ d) <$> logger s.
Proof.
  destruct s as [[cfg si sn] l w], h as [e| |e|e]; simpl.
  - split; [|exists []; rewrite fmap_app_nil];
      unfold on_train_start, rank_zero_warn, rank_zero_only;
      destruct l; simpl; try done;
      destruct (on_gpu e); simpl; try done; by case_decide.
  - split; [done|]. exists []. by rewrite fmap_app_nil.
  - destruct (decide (rank e = 0)) as [Hrank|Hrank];
      [|rewrite off_rank_start by done; split; [done|];
        exists []; by rewrite fmap_app_nil].
    destruct (on_train_batch_start_run e cfg l w Hrank)
      as (r & d & _ & _ & _ & ->).
    destruct r as [x|[]]; [split; [done|by exists d]|].
    destruct (start_timing_run e cfg si sn ((λ l0, l0 ++ d) <$> l) w)
      as (r & si' & -> & _).
    simpl. split; [done|]. rewrite fmap_app_app. by eexists.
  - destruct (decide (rank e = 0)) as [Hrank|Hrank];
      [|rewrite off_rank_end by done; split; [done|];
        exists []; by rewrite fmap_app_nil].
    destruct (on_train_batch_end_run e cfg l w Hrank)
      as (r & d & _ & _ & _ & ->).
    destruct r as [x|[]]; [split; [done|by exists d]|].
    destruct (end_timing_run e cfg si sn ((λ l0, l0 ++ d) <$> l) w)
      as (r & -> & _).
    simpl. split; [done|]. rewrite fmap_app_app. by eexists.
Qed.

(** X9.  No sequence of hook calls changes the switches of the monitor:
    what is sampled and timed is fixed when the monitor is built. *)
Theorem run_hooks_keeps_log_stats (hs : list hook_call) (s : state) :
  _log_stats (self (run_hooks hs s).2) = _log_stats (self s).
Proof.
  revert s. induction hs as [|h hs IH]; intros s; [done|].
  simpl. rewrite run_bind.
  destruct (call_hook_frame h s) as [Hcfg _].
  destruct (call_hook h s) as [[x|[]] s1]; [done|].
  by rewrite IH.
Qed.

(** ** Hooks that go through, hooks that come too early *)

Lemma start_goes_through e cfg si sn l w :
  queries_succeed e → sn ≠ Missing →
  ∃ si' l',
    on_train_batch_start e (State (Monitor cfg si sn) (Some l) w)
    = (inr tt, State (Monitor cfg si' sn) (Some l') w)
    ∧ (si ≠ Missing → si' ≠ Missing).
Proof.
  intros Hq Hsn.
  destruct (decide (rank e = 0)) as [Hrank|Hrank];
    [|rewrite off_rank_start by done; by eexists _, _].
  destruct (on_train_batch_start_run e cfg (Some l) w Hrank)
    as (r & d & _ & Hok & _ & ->).
  rewrite Hok by (done || by eexists).
  destruct (start_timing_run e cfg si sn ((λ l0, l0 ++ d) <$> Some l) w)
    as (r' & si' & -> & _ & Hsi & _ & Hret).
  rewrite Hret by (done || by eexists).
  eexists _, _. split; [done|]. by destruct Hsi as [-> | ->].
Qed.

Lemma end_goes_through e cfg si sn l w :
  queries_succeed e → si ≠ Missing →
  ∃ sn' l',
    on_train_batch_end e (State (Monitor cfg si sn) (Some l) w)
    = (inr tt, State (Monitor cfg si sn') (Some l') w)
    ∧ (sn ≠ Missing → sn' ≠ Missing).
Proof.
  intros Hq Hsi.
  destruct (decide (rank e = 0)) as [Hrank|Hrank];
    [|rewrite off_rank_end by done; by eexists _, _].
  destruct (on_train_batch_end_run e cfg (Some l) w Hrank)
    as (r & d & _ & Hok & _ & ->).
  rewrite Hok by (done || by eexists).
  destruct (end_timing_run e cfg si sn ((λ l0, l0 ++ d) <$> Some l) w)
    as (r' & -> & _ & _ & Hret).
  rewrite Hret by (done || by eexists).
  eexists _, _. split; [done|]. by destruct (inter_step_time cfg).
Qed.

(** X11.  With a logger, and as long as every query of the tool succeeds,
    an epoch goes through whatever the switches, the ranks and the number
    of steps are: after the reset no hook raises. *)
Theorem epoch_goes_through (steps : list (env * env)) (s : state) :
  is_Some (logger s) →
  Forall (λ step, queries_succeed step.1 ∧ queries_succeed step.2) steps →
  (epoch steps s).1 = inr tt.
Proof.
  destruct s as [[cfg si sn] l w]. intros [l0 Hl] Hsteps. simpl in Hl.
  subst l. unfold epoch. rewrite run_bind.
  change (on_train_epoch_start _)
    with (inr tt : exn + unit, State (Monitor cfg PyNone PyNone) (Some l0) w).
  cbv beta iota.
  assert (PyNone ≠ Missing) as Hsi by done.
  assert (PyNone ≠ Missing) as Hsn by done.
  revert Hsi Hsn. generalize PyNone at 1 3 as si0. generalize PyNone as sn0.
  revert l0.
  induction Hsteps as [|[e1 e2] steps [Hq1 Hq2] _ IH]; intros l0 sn0 si0 Hsi Hsn;
    [done|].
  simpl. rewrite run_bind.
  destruct (start_goes_through e1 cfg si0 sn0 l0 w Hq1 Hsn)
    as (si1 & l1 & -> & Hsi1).
  rewrite run_bind.
  destruct (end_goes_through e2 cfg si1 sn0 l1 w Hq2 (Hsi1 Hsi))
    as (sn1 & l2 & -> & Hsn1).
  apply IH; auto.
Qed.

Lemma start_timing_missing e cfg si l w :
  inter_step_time cfg = true →
  (start_timing e cfg (State (Monitor cfg si Missing) l w)).1
  = inl AttributeError.
Proof. unfold start_timing. by intros ->. Qed.

Lemma end_timing_missing e cfg sn l w :
  intra_step_time cfg = true →
  (end_timing e cfg (State (Monitor cfg Missing sn) l w)).1
  = inl AttributeError.
Proof.
  unfold end_timing. intros ->. by destruct (inter_step_time cfg).
Qed.

(** X12.  The constructor does not create the two time stamps.  On a
    monitor as it leaves it, before any other hook has run, in the process
    of rank 0 with a logger and a tool that answers, a start hook with
    [inter_step_time] on raises [AttributeError], and so does an end hook
    with [intra_step_time] on. *)
Theorem step_hook_before_first_epoch
    (e : env) (which : option string) (flags : log_stats)
    (mon : GPUStatsMonitor) (l : list (gmap string number * Z))
    (w : list string) :
  __init__ which flags = inr mon →
  rank e = 0 →
  queries_succeed e →
  (inter_step_time flags = true →
   (on_train_batch_start e (State mon (Some l) w)).1 = inl AttributeError)
  ∧ (intra_step_time flags = true →
     (on_train_batch_end e (State mon (Some l) w)).1 = inl AttributeError).
Proof.
  unfold __init__. destruct which as [path|]; [|done]. intros [= <-] Hrank Hq.
  split.
  - intros Hinter.
    destruct (on_train_batch_start_run e flags (Some l) w Hrank)
      as (r & d & _ & Hok & _ & ->).
    rewrite Hok by (done || by eexists). by apply start_timing_missing.
  - intros Hintra.
    destruct (on_train_batch_end_run e flags (Some l) w Hrank)
      as (r & d & _ & Hok & _ & ->).
    rewrite Hok by (done || by eexists). by apply end_timing_missing.
Qed.

(** ** Cutting the output into lines *)



Lemma concat_cons sep x (rest : list string) :
  rest ≠ [] →
  String.concat sep (x :: rest) = x +:+ sep +:+ String.concat sep rest.
Proof. by destruct rest. Qed.

(** ** From the printed lines to the readings *)

Lemma string_rev_cons c s : String.rev (String c s) = String.rev s +:+ String c "".
Proof. unfold String.rev at 1. simpl. by rewrite rev_app_spec. Qed.

Lemma string_rev_involutive s : String.rev (String.rev s) = s.
Proof.
  induction s as [|c s IH]; [done|].
  by rewrite string_rev_cons, string_rev_app, IH.
Qed.

Lemma no_space_app s1 s2 : no_space (s1 +:+ s2) = no_space s1 && no_space s2.
Proof.
  induction s1 as [|c s1 IH]; [done|].
  change (negb (py_isspace c) && no_space (s1 +:+ s2)
          = negb (py_isspace c) && no_space s1 && no_space s2).
  by rewrite IH, andb_assoc.
Qed.

Lemma no_space_rev s : no_space (String.rev s) = no_space s.
Proof.
  induction s as [|c s IH]; [done|].
  rewrite string_rev_cons, no_space_app, IH. simpl.
  by rewrite andb_true_r, andb_comm.
Qed.

Lemma lstrip_no_space l t :
  l ≠ "" → no_space l = true → py_lstrip (l +:+ t) = l +:+ t.
Proof.
  destruct l as [|c l]; [done|]. intros _ [Hc _]%andb_true_iff.
  change (py_lstrip (String c (l +:+ t)) = String c (l +:+ t)).
  simpl. by destruct (py_isspace c).
Qed.

Lemma rstrip_no_space t l :
  l ≠ "" → no_space l = true → py_rstrip (t +:+ l) = t +:+ l.
Proof.
  intros Hl Hns. unfold py_rstrip.
  rewrite string_rev_app, lstrip_no_space, <-string_rev_app.
  - apply string_rev_involutive.
  - intros Hrev. apply Hl.
    by rewrite <-(string_rev_involutive l), Hrev.
  - by rewrite no_space_rev.
Qed.

Lemma concat_snoc sep (ls : list string) x :
  ∃ pre, String.concat sep (ls ++ [x]) = pre +:+ x.
Proof.
  induction ls as [|l ls [pre IH]]; [by exists ""|].
  exists (l +:+ sep +:+ pre). simpl.
  destruct (ls ++ [x]) eqn:Hls; [by destruct ls|].
  by rewrite IH, !string_app_assoc.
Qed.

Lemma strip_printed_lines (lines : list string) :
  lines ≠ [] →
  Forall (λ l, l ≠ "" ∧ no_space l = true) lines →
  py_strip (String.concat LF lines) = String.concat LF lines.
Proof.
  intros Hne Hlines. unfold py_strip.
  assert (py_lstrip (String.concat LF lines) = String.concat LF lines) as ->.
  { destruct Hlines as [|l rest [Hl Hns] _]; [done|].
    destruct rest as [|l' rest].
    - rewrite <-(string_app_nil_r l). by apply lstrip_no_space.
    - rewrite concat_cons by done. by apply lstrip_no_space. }
  destruct lines as [|l0 ls _] using rev_ind; [done|].
  apply Forall_app in Hlines as [_ [Hl Hns]%Forall_singleton].
  destruct (concat_snoc LF ls l0) as [pre ->].
  by apply rstrip_no_space.
Qed.

Lemma split_go_cons sep cur c s :
  split_go sep 0 cur (String c s)
  = if String.prefix sep (String c s)
    then String.rev cur :: split_go sep (String.length sep - 1) "" s
    else split_go sep 0 (String c cur) s.
Proof. done. Qed.

Lemma prefix_LF c s :
  String.prefix LF (String c s) = if ascii_dec "010" c then true else false.
Proof.
  change (String.prefix LF (String c s))
    with (if ascii_dec "010" c then String.prefix "" s else false).
  destruct (ascii_dec "010" c); [|done]. by destruct s.
Qed.

Lemma split_go_line l cur t :
  no_space l = true →
  split_go LF 0 cur (l +:+ t) = split_go LF 0 (String.rev_app l cur) t.
Proof.
  revert cur. induction l as [|c l IH]; intros cur Hns; [done|].
  simpl in Hns. apply andb_true_iff in Hns as [Hc Hns].
  change (split_go LF 0 cur (String c (l +:+ t))
          = split_go LF 0 (String.rev_app l (String c cur)) t).
  rewrite <-IH, split_go_cons, prefix_LF by done.
  by destruct (ascii_dec "010" c) as [<-|].
Qed.

Lemma split_printed_lines (lines : list string) :
  lines ≠ [] →
  Forall (λ l, l ≠ "" ∧ no_space l = true) lines →
  split_go LF 0 "" (String.concat LF lines) = lines.
Proof.
  intros Hne Hlines.
  induction Hlines as [|l rest [Hl Hns] Hrest IH]; [done|].
  destruct rest as [|l' rest].
  - simpl. rewrite <-(string_app_nil_r l) at 1.
    rewrite split_go_line by done. simpl.
    change (String.rev_app l "") with (String.rev l).
    by rewrite string_rev_involutive.
  - rewrite concat_cons, split_go_line by done.
    change (LF +:+ String.concat LF (l' :: rest))
      with (String "010" (String.concat LF (l' :: rest))).
    change (String.rev_app l "") with (String.rev l).
    rewrite split_go_cons, prefix_LF.
    destruct (ascii_dec "010" "010") as [_|]; [|done].
    rewrite string_rev_involutive. f_equal. by apply IH.
Qed.

(** X14.  Where lines end in a line feed: when the tool exits with status 0
    and prints one token per device, not empty and free of white space,
    that parses as a float, the lines separated by line feeds and the whole
    possibly surrounded by white space such as the final line feed, then
    [_get_gpu_stat] returns one entry per printed line, the entry of
    device [i] holding the float of line [i]. *)
Theorem get_gpu_stat_of_printed_lines
    (e : env) (pitem unit path before after : string)
    (lines : list string) (vals : list float) :
  os_linesep = LF →
  which_nvidia_smi e = Some path →
  lines ≠ [] →
  Forall (λ l, l ≠ "" ∧ no_space l = true) lines →
  Forall2 (λ line v, float_of_str line = Some v) lines vals →
  blank before = true →
  blank after = true →
  nvidia_smi e pitem
  = Exited 0 (before +:+ String.concat LF lines +:+ after) →
  ∃ m : gmap string number,
    _get_gpu_stat e pitem unit = inr m
    ∧ size m = length lines
    ∧ ∀ i, m !! stat_name pitem i unit = PyFloat <$> vals !! i.
Proof.
  intros Hsep Hwhich Hne Hlines Hvals Hbefore Hafter Hrun.
  assert (parse_gpu_usage (before +:+ String.concat LF lines +:+ after)
          = Some vals) as Hparse.
  { unfold parse_gpu_usage.
    rewrite strip_blank_l, strip_blank_r, strip_printed_lines by done.
    rewrite Hsep. unfold py_split. rewrite decide_False by done.
    rewrite split_printed_lines by done. simpl. by apply mapM_Some. }
  eexists. split; [|split].
  - rewrite (get_gpu_stat_ok _ _ _ _ _ Hwhich Hrun), Hparse. done.
  - rewrite (dict_of_imap_size (λ i, stat_name pitem i unit)).
    rewrite length_fmap. symmetry. by eapply Forall2_length.
  - intros i. rewrite (dict_of_imap_lookup (λ i, stat_name pitem i unit)).
    by rewrite list_lookup_fmap.
Qed.

(** ** The time stamp of the step end *)

(** X15.  What the hooks do to the time stamp of the step end:
    [on_train_epoch_start] sets it to [None], a start hook never changes
    it, an end hook either leaves it or replaces it by its first clock
    reading, and an end hook that returns with [inter_step_time] on in the
    process of rank 0 has recorded that reading. *)
Theorem step_end_stamp (e : env) (s : state) :
  snap_inter_step_time (self (on_train_epoch_start s).2) = PyNone
  ∧ snap_inter_step_time (self (on_train_batch_start e s).2)
    = snap_inter_step_time (self s)
  ∧ (snap_inter_step_time (self (on_train_batch_end e s).2)
     = snap_inter_step_time (self s)
     ∨ snap_inter_step_time (self (on_train_batch_end e s).2)
       = Stamp (time_time e 0))
  ∧ (rank e = 0 →
     inter_step_time (_log_stats (self s)) = true →
     (on_train_batch_end e s).1 = inr tt →
     snap_inter_step_time (self (on_train_batch_end e s).2)
     = Stamp (time_time e 0)).
Proof.
  destruct s as [[cfg si sn] l w]. simpl. split_and!.
  - done.
  - destruct (decide (rank e = 0)) as [Hrank|Hrank];
      [|by rewrite off_rank_start].
    destruct (on_train_batch_start_run e cfg l w Hrank)
      as (r & d & _ & _ & _ & ->).
    destruct r as [x|[]]; [done|].
    by destruct (start_timing_run e cfg si sn ((λ l0, l0 ++ d) <$> l) w)
      as (r & si' & -> & _).
  - destruct (decide (rank e = 0)) as [Hrank|Hrank];
      [|rewrite off_rank_end by done; by left].
    destruct (on_train_batch_end_run e cfg l w Hrank)
      as (r & d & _ & _ & _ & ->).
    destruct r as [x|[]]; [by left|].
    destruct (end_timing_run e cfg si sn ((λ l0, l0 ++ d) <$> l) w)
      as (r & -> & _).
    simpl. destruct (inter_step_time cfg); by auto.
  - intros Hrank Hinter Hret.
    destruct (end_returns e cfg si sn l w Hrank Hret) as (d & _ & -> & _).
    simpl. by rewrite Hinter.
Qed.

(** ** The monitor with the default switches *)

(** X16.  A monitor built with the defaults samples and does not time.  In
    the process of rank 0, with a logger and a tool that answers, each of
    its step hooks returns, even before the first epoch has started, makes
    exactly four calls (the batches of [utilization.gpu], [memory.used],
    [memory.free] and [utilization.memory], in this order) and leaves the
    monitor as it was. *)
Theorem default_monitor_step (e : env) (s : state) (hook : M unit) :
  _log_stats (self s) = default_flags →
  rank e = 0 →
  is_Some (logger s) →
  queries_succeed e →
  hook = on_train_batch_start e ∨ hook = on_train_batch_end e →
  ∃ gpu used free util : gmap string number,
    _get_gpu_stat e "utilization.gpu" "%" = inr gpu
    ∧ _get_gpu_stat e "memory.used" "MB" = inr used
    ∧ _get_gpu_stat e "memory.free" "MB" = inr free
    ∧ _get_gpu_stat e "utilization.memory" "%" = inr util
    ∧ (hook s).1 = inr tt
    ∧ self (hook s).2 = self s
    ∧ emitted s (hook s).2
      = [(gpu, global_step e); (used, global_step e);
         (free, global_step e); (util, global_step e)].
Proof.
  destruct s as [[cfg si sn] l w]. simpl. intros -> Hrank [l0 ->] Hq Hhook.
  destruct (get_gpu_stat_succeeds e "utilization.gpu" "%" Hq) as [gpu Hgpu].
  destruct (get_gpu_stat_succeeds e "memory.used" "MB" Hq) as [used Hused].
  destruct (get_gpu_stat_succeeds e "memory.free" "MB" Hq) as [free Hfree].
  destruct (get_gpu_stat_succeeds e "utilization.memory" "%" Hq)
    as [util Hutil].
  exists gpu, used, free, util. split_and!; [done..| | |];
    destruct Hhook as [-> | ->];
    unfold on_train_batch_start, on_train_batch_end, rank_zero_only;
    rewrite decide_True by done;
    unfold default_flags, _log_usage, _log_memory, log_gpu_stat, log_metrics,
      lift, append_call, flag_and_attr, when, get_self, fmap, M_fmap, mbind,
      M_bind, mret, M_ret, bind, ret; simpl;
    rewrite ?Hgpu, ?Hused, ?Hfree, ?Hutil; simpl;
    rewrite ?Hgpu, ?Hused, ?Hfree, ?Hutil; simpl; try done;
    unfold emitted, calls; simpl; rewrite <-!app_assoc;
    apply drop_app_length.
Qed.

(** ** The readings of a well-formed output *)











End GPUStatsMonitor.

(** * The properties on concrete runs

    The builtin [float()] is instantiated by [float_of_digits] and
    [os.linesep] by the line feed. *)

Lemma get_gpu_stat_zero_fallback_witness :
  _get_gpu_stat float_of_digits LF (host "" 0) "fan.speed" "%"
  = inr {[ "gpu_fan.speed/gpu_id_0 (%)" := PyInt 0 ]}
  ∧ _get_gpu_stat float_of_digits LF (host ("10" +:+ LF +:+ "N/A") 0)
      "fan.speed" "%"
    = inr {[ "gpu_fan.speed/gpu_id_0 (%)" := PyInt 0 ]}.
Proof.
  split.
  - apply (get_gpu_stat_zero_fallback float_of_digits LF (host "" 0)
             "fan.speed" "%" "/usr/bin/nvidia-smi" "");
      [reflexivity|reflexivity|reflexivity|by left].
  - apply (get_gpu_stat_zero_fallback float_of_digits LF
             (host ("10" +:+ LF +:+ "N/A") 0)
             "fan.speed" "%" "/usr/bin/nvidia-smi" ("10" +:+ LF +:+ "N/A"));
      [reflexivity|reflexivity|reflexivity|].
    right. exists ["10"; "N/A"], "N/A".
    split; [vm_compute; reflexivity|]. split; [|reflexivity].
    apply elem_of_cons. right. apply elem_of_cons. by left.
Defined.


Lemma two_steps_timing_witness :
  two_steps_log float_of_digits LF (fresh timers_only)
    (host "" 0) (host "" 0) (host "" 0) (host "" 0)
    1%float 2%float 3%float 4%float.
Proof.
  apply (two_steps_timing float_of_digits LF (fresh timers_only)
           (host "" 0) (host "" 0) (host "" 0) (host "" 0)
           1%float 2%float 3%float 4%float);
    try reflexivity.
  - repeat split.
  - vm_compute. repeat split.
Defined.

(** C4 as it is stated fails when a step starts at the time stamp zero:
    with [t0 = 0 < 1 < 2 < 3] the four hooks return, and the first end hook
    logs no step time at all. *)
Lemma two_steps_from_time_zero :
  two_steps_return float_of_digits LF (fresh timers_only)
    (host "" 0) (host "" 0) (host "" 0) (host "" 0)
    0%float 1%float 2%float 3%float
  ∧ (PrimFloat.ltb 0 1 = true ∧ PrimFloat.ltb 1 2 = true
     ∧ PrimFloat.ltb 2 3 = true)
  ∧ (let s1 := (on_train_epoch_start (fresh timers_only)).2 in
     let s2 := (on_train_batch_start float_of_digits LF
                  (at_time 0 (host "" 0)) s1).2 in
     filter is_timing
       (emitted s2 (on_train_batch_end float_of_digits LF
                      (at_time 1 (host "" 0)) s2).2) = [])
  ∧ ¬ two_steps_at_any_times float_of_digits LF.
Proof.
  assert (two_steps_return float_of_digits LF (fresh timers_only)
            (host "" 0) (host "" 0) (host "" 0) (host "" 0)
            0%float 1%float 2%float 3%float) as Hret
    by (vm_compute; repeat split).
  split; [exact Hret|]. split; [repeat split|].
  split; [vm_compute; reflexivity|].
  intros Hclaim.
  destruct (Hclaim (fresh timers_only)
              (host "" 0) (host "" 0) (host "" 0) (host "" 0)
              0%float 1%float 2%float 3%float)
    as (_ & Hend & _); try reflexivity; [repeat split|exact Hret|].
  vm_compute in Hend. discriminate Hend.
Qed.

Lemma all_off_emits_nothing_witness :
  (epoch float_of_digits LF
     [(host "" 1, host "" 2); (host "" 3, host "" 4)] (fresh all_off)).1
  = inr tt
  ∧ logger (epoch float_of_digits LF
              [(host "" 1, host "" 2); (host "" 3, host "" 4)]
              (fresh all_off)).2
    = logger (fresh all_off)
  ∧ emitted (fresh all_off)
      (epoch float_of_digits LF
         [(host "" 1, host "" 2); (host "" 3, host "" 4)] (fresh all_off)).2
    = [].
Proof.
  apply (all_off_emits_nothing float_of_digits LF
           [(host "" 1, host "" 2); (host "" 3, host "" 4)] (fresh all_off)).
  reflexivity.
Defined.

Lemma memory_logged_in_three_calls_witness :
  ∃ used free util : gmap string number,
    _get_gpu_stat float_of_digits LF (host "5" 1) "memory.used" "MB"
    = inr used
    ∧ _get_gpu_stat float_of_digits LF (host "5" 1) "memory.free" "MB"
      = inr free
    ∧ _get_gpu_stat float_of_digits LF (host "5" 1) "utilization.memory" "%"
      = inr util
    ∧ filter is_memory
        (emitted (fresh memory_only)
           (on_train_batch_end float_of_digits LF (host "5" 1)
              (fresh memory_only)).2)
      = [(used, 7%Z); (free, 7%Z); (util, 7%Z)].
Proof.
  apply (memory_logged_in_three_calls float_of_digits LF (host "5" 1)
           (fresh memory_only)
           (on_train_batch_end float_of_digits LF (host "5" 1)));
    [reflexivity|reflexivity|by right|vm_compute; reflexivity].
Defined.

Lemma zero_time_stamp_is_absent_witness :
  let zero_end := State (Monitor timers_only PyNone (Stamp 0)) (Some []) [] in
  let no_end := State (Monitor timers_only PyNone PyNone) (Some []) [] in
  let zero_start := State (Monitor timers_only (Stamp 0) PyNone) (Some []) [] in
  let no_start := State (Monitor timers_only PyNone PyNone) (Some []) [] in
  (Forall (λ c, c.1 !! inter_step_key = None)
     (emitted zero_end
        (on_train_batch_start float_of_digits LF (host "" 5) zero_end).2)
   ∧ (on_train_batch_start float_of_digits LF (host "" 5) zero_end).1
     = (on_train_batch_start float_of_digits LF (host "" 5) no_end).1
   ∧ logger (on_train_batch_start float_of_digits LF (host "" 5) zero_end).2
     = logger (on_train_batch_start float_of_digits LF (host "" 5) no_end).2)
  ∧ (Forall (λ c, c.1 !! intra_step_key = None)
       (emitted zero_start
          (on_train_batch_end float_of_digits LF (host "" 5) zero_start).2)
     ∧ (on_train_batch_end float_of_digits LF (host "" 5) zero_start).1
       = (on_train_batch_end float_of_digits LF (host "" 5) no_start).1
     ∧ logger (on_train_batch_end float_of_digits LF (host "" 5) zero_start).2
       = logger (on_train_batch_end float_of_digits LF (host "" 5) no_start).2).
Proof.
  apply (zero_time_stamp_is_absent float_of_digits LF (host "" 5) timers_only
           PyNone PyNone (Some []) [] 0%float).
  reflexivity.
Defined.

Lemma step_start_stamp_persists_witness :
  let s := State (Monitor timers_only (Stamp 1) PyNone) (Some []) [] in
  filter is_timing
    (emitted s (on_train_batch_end float_of_digits LF (host "" 3) s).2)
  = [({[ intra_step_key := PyFloat (elapsed_ms 3 1) ]}, 7%Z)]
  ∧ filter is_timing
      (emitted (on_train_batch_end float_of_digits LF (host "" 3) s).2
         (on_train_batch_end float_of_digits LF (host "" 4)
            (on_train_batch_end float_of_digits LF (host "" 3) s).2).2)
    = [({[ intra_step_key := PyFloat (elapsed_ms 4 1) ]}, 7%Z)].
Proof.
  destruct (step_start_stamp_persists float_of_digits LF)
    as (_ & _ & _ & Hend & Hends).
  split.
  - apply (Hend (host "" 3)
             (State (Monitor timers_only (Stamp 1) PyNone) (Some []) [])
             1%float); reflexivity.
  - apply (Hends (host "" 3) (host "" 4)
             (State (Monitor timers_only (Stamp 1) PyNone) (Some []) [])
             1%float); reflexivity.
Defined.

(** C10 as it is stated fails when the step started at the time stamp
    zero: after the reset and a start hook at time 0, both returning, the
    end hook logs no step time. *)
Lemma intra_step_after_start_at_zero :
  (let s1 := (on_train_epoch_start (fresh timers_only)).2 in
   let s2 := (on_train_batch_start float_of_digits LF (host "" 0) s1).2 in
   (on_train_batch_start float_of_digits LF (host "" 0) s1).1 = inr tt
   ∧ snap_intra_step_time (self s2) = Stamp 0
   ∧ (on_train_batch_end float_of_digits LF (host "" 1) s2).1 = inr tt
   ∧ filter is_timing
       (emitted s2 (on_train_batch_end float_of_digits LF (host "" 1) s2).2)
     = [])
  ∧ ¬ intra_step_after_any_start float_of_digits LF.
Proof.
  split; [vm_compute; repeat split|].
  intros Hclaim.
  pose proof (Hclaim (fresh timers_only) (host "" 0) (host "" 1)
                eq_refl eq_refl eq_refl) as Hend.
  simpl in Hend. specialize (Hend eq_refl).
  assert ((on_train_batch_end float_of_digits LF (host "" 1)
             (on_train_batch_start float_of_digits LF (host "" 0)
                (on_train_epoch_start (fresh timers_only)).2).2).1 = inr tt)
    as Hret by (vm_compute; reflexivity).
  specialize (Hend Hret). vm_compute in Hend. discriminate Hend.
Qed.

Lemma get_gpu_stat_devices_witness :
  ∃ m : gmap string number,
    _get_gpu_stat float_of_digits LF (host three_gpus 0) "fan.speed" "%"
    = inr m
    ∧ 0 < size m
    ∧ (∀ index, is_Some (m !! stat_name "fan.speed" index "%")
                ↔ index < size m)
    ∧ (∀ key, is_Some (m !! key) →
              ∃ index, index < size m ∧ key = stat_name "fan.speed" index "%").
Proof.
  destruct (get_gpu_stat_succeeds float_of_digits LF (host three_gpus 0)
              "fan.speed" "%") as [m Hm].
  { split; [by eexists|]. intros pitem. by eexists. }
  exists m. split; [exact Hm|].
  exact (get_gpu_stat_devices float_of_digits LF _ _ _ m Hm).
Defined.

Lemma sampled_batches_disjoint_witness :
  ∃ m m' : gmap string number,
    _get_gpu_stat float_of_digits LF (host three_gpus 0) "memory.used" "MB"
    = inr m
    ∧ _get_gpu_stat float_of_digits LF (host "7" 0) "memory.free" "MB"
      = inr m'
    ∧ m ##ₘ m'
    ∧ m !! inter_step_key = None ∧ m !! intra_step_key = None.
Proof.
  destruct (get_gpu_stat_succeeds float_of_digits LF (host three_gpus 0)
              "memory.used" "MB") as [m Hm].
  { split; [by eexists|]. intros pitem. by eexists. }
  destruct (get_gpu_stat_succeeds float_of_digits LF (host "7" 0)
              "memory.free" "MB") as [m' Hm'].
  { split; [by eexists|]. intros pitem. by eexists. }
  exists m, m'. split; [exact Hm|]. split; [exact Hm'|].
  apply (sampled_batches_disjoint float_of_digits LF
           (host three_gpus 0) (host "7" 0)
           ("memory.used", "MB") ("memory.free", "MB") m m');
    [| |discriminate|exact Hm|exact Hm'].
  - apply elem_of_cons. right. apply elem_of_cons. by left.
  - do 2 (apply elem_of_cons; right). apply elem_of_cons. by left.
Defined.

Lemma get_gpu_stat_ignores_outer_space_witness :
  _get_gpu_stat float_of_digits LF (host (" " +:+ three_gpus +:+ LF) 0)
    "fan.speed" "%"
  = _get_gpu_stat float_of_digits LF (host three_gpus 0) "fan.speed" "%".
Proof.
  apply (get_gpu_stat_ignores_outer_space float_of_digits LF
           (host three_gpus 0) (host (" " +:+ three_gpus +:+ LF) 0)
           "fan.speed" "%" three_gpus " " LF); reflexivity.
Defined.

Lemma start_hook_calls_witness :
  ∃ batches : list (gmap string number),
    Forall2 (λ q m, _get_gpu_stat float_of_digits LF (host "5" 1) q.1 q.2
                    = inr m)
      (start_queries memory_only) batches
    ∧ emitted (fresh memory_only)
        (on_train_batch_start float_of_digits LF (host "5" 1)
           (fresh memory_only)).2
      = ((λ m, (m, 7%Z)) <$> batches)
        ++ timing_calls (host "5" 1) false inter_step_key 1 Missing.
Proof.
  apply (start_hook_calls float_of_digits LF (host "5" 1) (fresh memory_only));
    [reflexivity|vm_compute; reflexivity].
Defined.

Lemma end_hook_calls_witness :
  ∃ batches : list (gmap string number),
    Forall2 (λ q m, _get_gpu_stat float_of_digits LF (host "5" 1) q.1 q.2
                    = inr m)
      (end_queries memory_only) batches
    ∧ emitted (fresh memory_only)
        (on_train_batch_end float_of_digits LF (host "5" 1)
           (fresh memory_only)).2
      = ((λ m, (m, 7%Z)) <$> batches)
        ++ timing_calls (host "5" 1) false intra_step_key 1 Missing.
Proof.
  apply (end_hook_calls float_of_digits LF (host "5" 1) (fresh memory_only));
    [reflexivity|vm_compute; reflexivity].
Defined.

Lemma start_error_keeps_monitor_witness :
  self (on_train_batch_start float_of_digits LF (failing_host 9)
          (fresh memory_only)).2
  = self (fresh memory_only).
Proof.
  apply (start_error_keeps_monitor float_of_digits LF (failing_host 9)
           (fresh memory_only) (CalledProcessError 9)).
  vm_compute. reflexivity.
Defined.

Lemma epoch_goes_through_witness :
  (epoch float_of_digits LF
     [(host "5" 1, host "N/A" 2); (host three_gpus 3, host "" 4)]
     (fresh (LogStats true true true true true true))).1
  = inr tt.
Proof.
  apply (epoch_goes_through float_of_digits LF
           [(host "5" 1, host "N/A" 2); (host three_gpus 3, host "" 4)]
           (fresh (LogStats true true true true true true)));
    [by eexists|].
  repeat constructor; simpl; try (by eexists); intros pitem; by eexists.
Defined.

Lemma step_hook_before_first_epoch_witness :
  (on_train_batch_start float_of_digits LF (host "5" 1)
     (State (Monitor timers_only Missing Missing) (Some []) [])).1
  = inl AttributeError
  ∧ (on_train_batch_end float_of_digits LF (host "5" 1)
       (State (Monitor timers_only Missing Missing) (Some []) [])).1
    = inl AttributeError.
Proof.
  destruct (step_hook_before_first_epoch float_of_digits LF (host "5" 1)
              (Some "/usr/bin/nvidia-smi") timers_only
              (Monitor timers_only Missing Missing) [] [])
    as [Hstart Hend]; [reflexivity|reflexivity| |].
  - split; [by eexists|]. intros pitem. by eexists.
  - split; [by apply Hstart|by apply Hend].
Defined.

Lemma get_gpu_stat_of_printed_lines_witness :
  ∃ m : gmap string number,
    _get_gpu_stat float_of_digits LF (host (three_gpus +:+ LF) 0)
      "fan.speed" "%" = inr m
    ∧ size m = 3
    ∧ ∀ i, m !! stat_name "fan.speed" i "%"
           = PyFloat <$> [10%float; 20%float; 30%float] !! i.
Proof.
  apply (get_gpu_stat_of_printed_lines float_of_digits LF
           (host (three_gpus +:+ LF) 0) "fan.speed" "%"
           "/usr/bin/nvidia-smi" "" LF ["10"; "20"; "30"]
           [10%float; 20%float; 30%float]);
    try reflexivity; try discriminate; repeat constructor; discriminate.
Defined.

Lemma step_end_stamp_witness :
  snap_inter_step_time
    (self (on_train_batch_end float_of_digits LF (host "" 3)
             (fresh timers_only)).2)
  = Stamp 3.
Proof.
  destruct (step_end_stamp float_of_digits LF (host "" 3)
              (State (Monitor timers_only PyNone PyNone) (Some []) []))
    as (_ & _ & _ & Hend).
  exact (Hend eq_refl eq_refl eq_refl).
Defined.

Lemma default_monitor_step_witness :
  ∃ gpu used free util : gmap string number,
    _get_gpu_stat float_of_digits LF (host "5" 1) "utilization.gpu" "%"
    = inr gpu
    ∧ _get_gpu_stat float_of_digits LF (host "5" 1) "memory.used" "MB"
      = inr used
    ∧ _get_gpu_stat float_of_digits LF (host "5" 1) "memory.free" "MB"
      = inr free
    ∧ _get_gpu_stat float_of_digits LF (host "5" 1) "utilization.memory" "%"
      = inr util
    ∧ (on_train_batch_end float_of_digits LF (host "5" 1)
         (fresh default_flags)).1 = inr tt
    ∧ self (on_train_batch_end float_of_digits LF (host "5" 1)
              (fresh default_flags)).2 = self (fresh default_flags)
    ∧ emitted (fresh default_flags)
        (on_train_batch_end float_of_digits LF (host "5" 1)
           (fresh default_flags)).2
      = [(gpu, 7%Z); (used, 7%Z); (free, 7%Z); (util, 7%Z)].
Proof.
  apply (default_monitor_step float_of_digits LF (host "5" 1)
           (fresh default_flags)
           (on_train_batch_end float_of_digits LF (host "5" 1)));
    [reflexivity|reflexivity|by eexists| |by right].
  split; [by eexists|]. intros pitem. by eexists.
Defined.


